(** * TranspoLogisticsDemo: the in-memory store, the RBAC middleware and the API routes

    A shallow embedding of [src/services/mockDb.ts], [src/middleware/rbac.ts]
    and the route handlers under [src/app/api], followed by the properties of
    the approval gate, the permission evaluator and the product-list totals.

    Conventions of the embedding.
    - The singleton [mockDb] is an explicit [MockDatabase] value threaded
      through every handler: a handler maps the store and a request to a
      response and the store after the call.
    - [Math.random] and [new Date] are an explicit environment [Env]: the
      n-th identifier drawn during a call, and the time stamp of the call.
    - Numbers are integers ([Z]); JSON numbers with a fractional part are not
      represented.
    - The routes that keep the raw request body ([POST /api/orders], which
      spreads it into the stored order, and [POST /api/exhibitions/approve],
      which tests the received status) take the body as a JS object, a finite
      map from keys to JSON values.  The other routes build typed rows out of
      the body; their body is a record of the fields the handler reads, typed
      as the interfaces of [mockDb.ts] declare them, with [option] for a field
      the handler tests for presence.
    - The tables [ingredients] and [packaging] are read and written by no
      route and are left out of the store. *)

From Stdlib Require Import ZArith.
From stdpp Require Import base gmap strings list.

Set Warnings "-register-all".
Open Scope string_scope.

(** ** JSON values as the handlers see them *)

Inductive jsval : Type :=
| VUndefined
| VNull
| VBool (b : bool)
| VNum (n : Z)
| VStr (s : string)
| VArr (elems : list jsval)
| VObj (fields : gmap string jsval).

Abbreviation jsobj := (gmap string jsval).

(** [if (v)], [v && ...], [!v] *)
Definition truthy (v : jsval) : bool :=
  match v with
  | VUndefined | VNull => false
  | VBool b => b
  | VNum n => negb (n =? 0)%Z
  | VStr s => negb (String.eqb s "")
  | VArr _ | VObj _ => true
  end.

(** [Array.isArray(v)] *)
Definition isArray (v : jsval) : bool :=
  match v with VArr _ => true | _ => false end.

(** The elements a [for ... of] visits; only used behind [isArray]. *)
Definition array_elems (v : jsval) : list jsval :=
  match v with VArr l => l | _ => [] end.

(** [const { k } = body]: the value under [k], [undefined] when absent. *)
Definition destructure (body : jsobj) (k : string) : jsval :=
  default VUndefined (body !! k).

(** [v.k] for a key [k] that is no built-in property ([productId]):
    [None] is the [TypeError] of reading a property of [null] or
    [undefined]; a primitive or an array has no such property. *)
Definition get_prop (v : jsval) (k : string) : option jsval :=
  match v with
  | VUndefined | VNull => None
  | VObj o => Some (default VUndefined (o !! k))
  | VBool _ | VNum _ | VStr _ | VArr _ => Some VUndefined
  end.

(** [s === v] where [s] is a string held by a table row. *)
Definition strict_eq_str (s : string) (v : jsval) : bool :=
  match v with
  | VStr t => String.eqb s t
  | _ => false
  end.

(** [allowed.includes(x)] on an array of strings. *)
Definition includes (allowed : list string) (x : string) : bool :=
  existsb (String.eqb x) allowed.

(** [arr.findIndex(f)]; [None] is the [-1] of JS. *)
Fixpoint findIndex {A : Type} (f : A -> bool) (l : list A) : option nat :=
  match l with
  | [] => None
  | x :: rest => if f x then Some 0 else S <$> findIndex f rest
  end.

(** ** Type definitions of [mockDb.ts] *)

(** [UserRole] is a union of string literals; at run time a role is a
    string. *)
Abbreviation UserRole := string (only parsing).

Module User.
Record t := mk {
  id : string;
  username : string;
  role : UserRole;
  fullName : string
}.
End User.

Module Product.
Record t := mk {
  id : string;
  name : string;
  category : string;
  buyingPrice : Z;
  quantity : Z;
  unit : string;
  thresholdValue : Z;
  expiryDate : string;
  availability : string;
  image : option string;
  sku : option string;
  description : option string;
  packagingId : option string;
  isApproved : option bool
}.

(** [Partial<Product>]: the keys present in an update. *)
Record partial := mkPartial {
  u_id : option string;
  u_name : option string;
  u_category : option string;
  u_buyingPrice : option Z;
  u_quantity : option Z;
  u_unit : option string;
  u_thresholdValue : option Z;
  u_expiryDate : option string;
  u_availability : option string;
  u_image : option string;
  u_sku : option string;
  u_description : option string;
  u_packagingId : option string;
  u_isApproved : option bool
}.

(** [{ ...p, ...updates }] *)
Definition merge (p : t) (u : partial) : t :=
  {| id := default (id p) (u_id u);
     name := default (name p) (u_name u);
     category := default (category p) (u_category u);
     buyingPrice := default (buyingPrice p) (u_buyingPrice u);
     quantity := default (quantity p) (u_quantity u);
     unit := default (unit p) (u_unit u);
     thresholdValue := default (thresholdValue p) (u_thresholdValue u);
     expiryDate := default (expiryDate p) (u_expiryDate u);
     availability := default (availability p) (u_availability u);
     image := from_option Some (image p) (u_image u);
     sku := from_option Some (sku p) (u_sku u);
     description := from_option Some (description p) (u_description u);
     packagingId := from_option Some (packagingId p) (u_packagingId u);
     isApproved := from_option Some (isApproved p) (u_isApproved u) |}.
End Product.

Module Exhibition.
Inductive Status := PLANNING | ACTIVE | COMPLETED.

Record t := mk {
  id : string;
  exhibitionId : string;
  name : string;
  description : option string;
  startDate : option string;
  endDate : option string;
  status : option Status
}.
End Exhibition.

Module ExhibitionProduct.
Inductive Status := pending | approved | rejected.

Definition Status_eqb (a b : Status) : bool :=
  match a, b with
  | pending, pending | approved, approved | rejected, rejected => true
  | _, _ => false
  end.

Record t := mk {
  id : string;
  exhibitionId : string;
  productId : string;
  quantity : Z;
  price : option Z;
  status : Status;
  supplierId : string;
  complianceNotes : option string
}.

(** [Partial<ExhibitionProduct>] *)
Record partial := mkPartial {
  u_id : option string;
  u_exhibitionId : option string;
  u_productId : option string;
  u_quantity : option Z;
  u_price : option Z;
  u_status : option Status;
  u_supplierId : option string;
  u_complianceNotes : option string
}.

(** The update [{ status }] of the approval route. *)
Definition only_status (s : Status) : partial :=
  mkPartial None None None None None (Some s) None None.

(** [{ ...ep, ...updates }] *)
Definition merge (ep : t) (u : partial) : t :=
  {| id := default (id ep) (u_id u);
     exhibitionId := default (exhibitionId ep) (u_exhibitionId u);
     productId := default (productId ep) (u_productId u);
     quantity := default (quantity ep) (u_quantity u);
     price := from_option Some (price ep) (u_price u);
     status := default (status ep) (u_status u);
     supplierId := default (supplierId ep) (u_supplierId u);
     complianceNotes :=
       from_option Some (complianceNotes ep) (u_complianceNotes u) |}.
End ExhibitionProduct.

Module ProductList.
Record t := mk {
  id : string;
  exhibitionId : string;
  supplierId : string;
  status : string;
  createdAt : string;
  totalQuantity : Z
}.

(** [Partial<ProductList>] *)
Record partial := mkPartial {
  u_id : option string;
  u_exhibitionId : option string;
  u_supplierId : option string;
  u_status : option string;
  u_createdAt : option string;
  u_totalQuantity : option Z
}.

Definition only_status (s : string) : partial :=
  mkPartial None None None (Some s) None None.

Definition only_totalQuantity (q : Z) : partial :=
  mkPartial None None None None None (Some q).

(** [{ ...pl, ...updates }] *)
Definition merge (pl : t) (u : partial) : t :=
  {| id := default (id pl) (u_id u);
     exhibitionId := default (exhibitionId pl) (u_exhibitionId u);
     supplierId := default (supplierId pl) (u_supplierId u);
     status := default (status pl) (u_status u);
     createdAt := default (createdAt pl) (u_createdAt u);
     totalQuantity := default (totalQuantity pl) (u_totalQuantity u) |}.
End ProductList.

Module ProductListItem.
Record t := mk {
  id : string;
  productListId : string;
  productId : string;
  quantity : Z;
  price : Z
}.
End ProductListItem.

(** An [Order] is stored as the object the route built: the interface is not
    checked at run time and the route spreads the request body into it. *)
Abbreviation Order := (gmap string jsval).

(** ** The in-memory data store *)

Record MockDatabase := mkDb {
  users : list User.t;
  products : list Product.t;
  exhibitions : list Exhibition.t;
  exhibitionProducts : list ExhibitionProduct.t;
  orders : list Order;
  productLists : list ProductList.t;
  productListItems : list ProductListItem.t
}.

Definition with_products (db : MockDatabase) (l : list Product.t) :=
  mkDb (users db) l (exhibitions db) (exhibitionProducts db) (orders db)
       (productLists db) (productListItems db).

Definition with_exhibitions (db : MockDatabase) (l : list Exhibition.t) :=
  mkDb (users db) (products db) l (exhibitionProducts db) (orders db)
       (productLists db) (productListItems db).

Definition with_exhibitionProducts (db : MockDatabase)
    (l : list ExhibitionProduct.t) :=
  mkDb (users db) (products db) (exhibitions db) l (orders db)
       (productLists db) (productListItems db).

Definition with_orders (db : MockDatabase) (l : list Order) :=
  mkDb (users db) (products db) (exhibitions db) (exhibitionProducts db) l
       (productLists db) (productListItems db).

Definition with_productLists (db : MockDatabase) (l : list ProductList.t) :=
  mkDb (users db) (products db) (exhibitions db) (exhibitionProducts db)
       (orders db) l (productListItems db).

Definition with_productListItems (db : MockDatabase)
    (l : list ProductListItem.t) :=
  mkDb (users db) (products db) (exhibitions db) (exhibitionProducts db)
       (orders db) (productLists db) l.

(** ** Seed data ([INITIAL_DATA]) *)

Definition seed_product (id name category : string) (buyingPrice quantity : Z)
    (thresholdValue : Z) (expiryDate availability : string)
    (isApproved : bool) : Product.t :=
  {| Product.id := id;
     Product.name := name;
     Product.category := category;
     Product.buyingPrice := buyingPrice;
     Product.quantity := quantity;
     Product.unit := "Packets";
     Product.thresholdValue := thresholdValue;
     Product.expiryDate := expiryDate;
     Product.availability := availability;
     Product.image := Some "/placeholder.png";
     Product.sku := Some ("SKU-" ++ id);
     Product.description := None;
     Product.packagingId := None;
     Product.isApproved := Some isApproved |}.

Definition seed_exhibitionProduct (id productId : string)
    (status : ExhibitionProduct.Status) : ExhibitionProduct.t :=
  {| ExhibitionProduct.id := id;
     ExhibitionProduct.exhibitionId := "EX-2941";
     ExhibitionProduct.productId := productId;
     ExhibitionProduct.quantity := 1;
     ExhibitionProduct.price := None;
     ExhibitionProduct.status := status;
     ExhibitionProduct.supplierId := "current-user";
     ExhibitionProduct.complianceNotes := None |}.

Definition seed_order (id exhibition : string) (orderValue quantity : Z)
    (expectedDelivery status : string) : Order :=
  {[ "id" := VStr id;
     "exhibition" := VStr exhibition;
     "orderValue" := VNum orderValue;
     "quantity" := VNum quantity;
     "unit" := VStr "Packets";
     "expectedDelivery" := VStr expectedDelivery;
     "status" := VStr status ]}.

Definition INITIAL_DATA : MockDatabase :=
  {| users :=
       [ User.mk "u1" "admin" "ADMIN" "Super Admin";
         User.mk "u2" "manager" "MANAGER" "Project Manager";
         User.mk "u3" "staff" "USER" "Operational Staff";
         User.mk "u4" "viewer" "VIEWER" "Read Only Viewer" ];
     products :=
       [ seed_product "456567" "Maggi" "Instant food" 430 43 12
           "2022-12-11" "In-stock" true;
         seed_product "456568" "Bru" "Instant food" 257 22 12
           "2022-12-21" "Out of stock" false;
         seed_product "456569" "Red Bull" "Energy Drink" 405 36 9
           "2022-12-05" "In-stock" true;
         seed_product "456570" "Bourn Vita" "Health Drink" 502 14 6
           "2022-12-08" "Out of stock" false;
         seed_product "456571" "Horlicks" "Health Drink" 530 5 5
           "2023-01-09" "In-stock" true ];
     exhibitions :=
       [ Exhibition.mk "oxurt5ywn" "EX-2941" "test exibition"
           (Some "testtesttest") (Some "2025-12-02") (Some "2025-12-17")
           (Some Exhibition.PLANNING);
         Exhibition.mk "ui61d3cma" "EX-7516" "test2"
           (Some "") (Some "2025-12-17") (Some "2025-12-17")
           (Some Exhibition.PLANNING);
         Exhibition.mk "fs13x086f" "EX-7460" "AAAA"
           (Some "") (Some "2025-12-03") (Some "2025-12-06")
           (Some Exhibition.ACTIVE) ];
     exhibitionProducts :=
       [ seed_exhibitionProduct "d7gyiq52d" "456567"
           ExhibitionProduct.approved;
         seed_exhibitionProduct "cszttszpu" "456568"
           ExhibitionProduct.pending;
         seed_exhibitionProduct "is0w5qty1" "456570"
           ExhibitionProduct.pending;
         seed_exhibitionProduct "7cajr3r7o" "456571"
           ExhibitionProduct.pending ];
     orders :=
       [ seed_order "7535" "Taste & Treat Festival" 4306000 43
           "2022-12-11" "Delayed";
         seed_order "5724" "Flavors of the City" 2557000 22
           "2022-12-21" "Received";
         seed_order "2775" "Street Bite Market" 4075000 36
           "2022-12-05" "Returned" ];
     productLists :=
       [ ProductList.mk "a1e8x088e" "EX-2941" "current-user" "pending"
           "2025-12-03T03:05:05.799Z" 12;
         ProductList.mk "r2is3icfx" "EX-7460" "current-user" "pending"
           "2025-12-03T03:06:14.423Z" 3 ];
     productListItems :=
       [ ProductListItem.mk "15ukio6ll" "a1e8x088e" "456567" 11 430;
         ProductListItem.mk "y9leq73fw" "a1e8x088e" "456568" 1 257;
         ProductListItem.mk "j2n0iuw1l" "r2is3icfx" "456567" 1 430;
         ProductListItem.mk "r4zoefv9a" "r2is3icfx" "456568" 1 257;
         ProductListItem.mk "i66klbiam" "r2is3icfx" "456569" 1 405 ] |}.

(** ** The methods of [MockDB]

    A method that mutates the store returns its result and the store after
    the call. *)

Module MockDB.

(** *** Users *)

Definition getUserById (db : MockDatabase) (id : string) : option User.t :=
  List.find (fun u => String.eqb (User.id u) id) (users db).

(** *** Products *)

Definition getProducts (db : MockDatabase) : list Product.t := products db.

(** [id] is whatever the caller read from a body or a row. *)
Definition getProductById (db : MockDatabase) (id : jsval)
    : option Product.t :=
  List.find (fun p => strict_eq_str (Product.id p) id) (products db).

Definition addProduct (db : MockDatabase) (product : Product.t)
    : Product.t * MockDatabase :=
  (product, with_products db (products db ++ [product])).

Definition updateProduct (db : MockDatabase) (id : string)
    (updates : Product.partial) : option (Product.t * MockDatabase) :=
  match findIndex (fun p => String.eqb (Product.id p) id) (products db) with
  | None => None
  | Some index =>
      match products db !! index with
      | None => None
      | Some old =>
          let new := Product.merge old updates in
          Some (new, with_products db (<[index := new]> (products db)))
      end
  end.

Definition deleteProduct (db : MockDatabase) (id : string)
    : bool * MockDatabase :=
  match findIndex (fun p => String.eqb (Product.id p) id) (products db) with
  | None => (false, db)
  | Some index => (true, with_products db (delete index (products db)))
  end.

(** *** Exhibitions *)

Definition getExhibitions (db : MockDatabase) : list Exhibition.t :=
  exhibitions db.

Definition addExhibition (db : MockDatabase) (exhibition : Exhibition.t)
    : Exhibition.t * MockDatabase :=
  (exhibition, with_exhibitions db (exhibitions db ++ [exhibition])).

(** *** Exhibition products *)

Definition getExhibitionProductsByExhibitionId (db : MockDatabase)
    (exhibitionId : string) : list ExhibitionProduct.t :=
  List.filter
    (fun ep => String.eqb (ExhibitionProduct.exhibitionId ep) exhibitionId)
    (exhibitionProducts db).

Definition addExhibitionProduct (db : MockDatabase)
    (exhibitionProduct : ExhibitionProduct.t)
    : ExhibitionProduct.t * MockDatabase :=
  (exhibitionProduct,
   with_exhibitionProducts db
     (exhibitionProducts db ++ [exhibitionProduct])).

Definition updateExhibitionProduct (db : MockDatabase) (id : jsval)
    (updates : ExhibitionProduct.partial)
    : option (ExhibitionProduct.t * MockDatabase) :=
  match findIndex (fun ep => strict_eq_str (ExhibitionProduct.id ep) id)
          (exhibitionProducts db) with
  | None => None
  | Some index =>
      match exhibitionProducts db !! index with
      | None => None
      | Some old =>
          let new := ExhibitionProduct.merge old updates in
          Some (new,
                with_exhibitionProducts db
                  (<[index := new]> (exhibitionProducts db)))
      end
  end.

(** *** Orders *)

Definition getOrders (db : MockDatabase) : list Order := orders db.

Definition addOrder (db : MockDatabase) (order : Order)
    : Order * MockDatabase :=
  (order, with_orders db (orders db ++ [order])).

(** *** Product lists *)

Definition getProductLists (db : MockDatabase) : list ProductList.t :=
  productLists db.

Definition getProductListById (db : MockDatabase) (id : string)
    : option ProductList.t :=
  List.find (fun pl => String.eqb (ProductList.id pl) id) (productLists db).

Definition addProductList (db : MockDatabase) (productList : ProductList.t)
    : ProductList.t * MockDatabase :=
  (productList, with_productLists db (productLists db ++ [productList])).

Definition updateProductList (db : MockDatabase) (id : string)
    (updates : ProductList.partial)
    : option (ProductList.t * MockDatabase) :=
  match findIndex (fun pl => String.eqb (ProductList.id pl) id)
          (productLists db) with
  | None => None
  | Some index =>
      match productLists db !! index with
      | None => None
      | Some old =>
          let new := ProductList.merge old updates in
          Some (new, with_productLists db (<[index := new]> (productLists db)))
      end
  end.

(** *** Product list items *)

Definition getProductListItemsByProductListId (db : MockDatabase)
    (productListId : string) : list ProductListItem.t :=
  List.filter
    (fun pli => String.eqb (ProductListItem.productListId pli) productListId)
    (productListItems db).

Definition addProductListItem (db : MockDatabase) (item : ProductListItem.t)
    : ProductListItem.t * MockDatabase :=
  (item, with_productListItems db (productListItems db ++ [item])).

Definition deleteProductListItemsByProductListId (db : MockDatabase)
    (productListId : string) : MockDatabase :=
  with_productListItems db
    (List.filter
       (fun item =>
          negb (String.eqb (ProductListItem.productListId item)
                  productListId))
       (productListItems db)).

(** *** Business logic helpers *)

Definition getApprovedExhibitionProducts (db : MockDatabase)
    (exhibitionId : string) : list ExhibitionProduct.t :=
  List.filter
    (fun ep =>
       String.eqb (ExhibitionProduct.exhibitionId ep) exhibitionId
       && ExhibitionProduct.Status_eqb (ExhibitionProduct.status ep)
            ExhibitionProduct.approved)
    (exhibitionProducts db).

(** Check if a product is approved for a specific exhibition. *)
Definition isProductApprovedForExhibition (db : MockDatabase)
    (exhibitionId productId : jsval) : bool :=
  match List.find
          (fun ep =>
             strict_eq_str (ExhibitionProduct.exhibitionId ep) exhibitionId
             && strict_eq_str (ExhibitionProduct.productId ep) productId)
          (exhibitionProducts db) with
  | Some ep =>
      ExhibitionProduct.Status_eqb (ExhibitionProduct.status ep)
        ExhibitionProduct.approved
  | None => false
  end.

Definition getPendingExhibitionProducts (db : MockDatabase)
    : list ExhibitionProduct.t :=
  List.filter
    (fun ep =>
       ExhibitionProduct.Status_eqb (ExhibitionProduct.status ep)
         ExhibitionProduct.pending)
    (exhibitionProducts db).

(** *** The remaining readers and writers *)

Definition getUserByUsername (db : MockDatabase) (username : string)
    : option User.t :=
  List.find (fun u => String.eqb (User.username u) username) (users db).

Definition getExhibitionById (db : MockDatabase) (id : string)
    : option Exhibition.t :=
  List.find (fun e => String.eqb (Exhibition.id e) id) (exhibitions db).

Definition getExhibitionByExhibitionId (db : MockDatabase)
    (exhibitionId : string) : option Exhibition.t :=
  List.find (fun e => String.eqb (Exhibition.exhibitionId e) exhibitionId)
    (exhibitions db).

Definition getExhibitionProductById (db : MockDatabase) (id : string)
    : option ExhibitionProduct.t :=
  List.find (fun ep => String.eqb (ExhibitionProduct.id ep) id)
    (exhibitionProducts db).

(** [o.id === id]: the [id] of a stored order is whatever the body gave. *)
Definition getOrderById (db : MockDatabase) (id : string) : option Order :=
  List.find (fun o => strict_eq_str id (destructure o "id")) (orders db).

(** [{ ...this.data.orders[index], ...updates }] *)
Definition updateOrder (db : MockDatabase) (id : string) (updates : jsobj)
    : option (Order * MockDatabase) :=
  match findIndex (fun o => strict_eq_str id (destructure o "id"))
          (orders db) with
  | None => None
  | Some index =>
      match orders db !! index with
      | None => None
      | Some old =>
          let new := updates ∪ old in
          Some (new, with_orders db (<[index := new]> (orders db)))
      end
  end.


(** [ep.status = status] on the row [ep]. *)
Definition assign_status (ep : ExhibitionProduct.t)
    (status : ExhibitionProduct.Status) : ExhibitionProduct.t :=
  ExhibitionProduct.mk (ExhibitionProduct.id ep)
    (ExhibitionProduct.exhibitionId ep) (ExhibitionProduct.productId ep)
    (ExhibitionProduct.quantity ep) (ExhibitionProduct.price ep) status
    (ExhibitionProduct.supplierId ep) (ExhibitionProduct.complianceNotes ep).

(** [find] returns the row object the table holds, and the assignment to its
    [status] changes that object: the table changes at the position of the
    earliest row of that id. *)
Definition assignExhibitionProductStatus (db : MockDatabase)
    (exhibitionProductId : string) (status : ExhibitionProduct.Status)
    : option (ExhibitionProduct.t * MockDatabase) :=
  match findIndex
          (fun ep => String.eqb (ExhibitionProduct.id ep) exhibitionProductId)
          (exhibitionProducts db) with
  | None => None
  | Some index =>
      match exhibitionProducts db !! index with
      | None => None
      | Some ep =>
          Some (assign_status ep status,
                with_exhibitionProducts db
                  (<[index := assign_status ep status]>
                     (exhibitionProducts db)))
      end
  end.

(** Approve an exhibition product (changes status to 'approved'). *)
Definition approveExhibitionProduct (db : MockDatabase)
    (exhibitionProductId : string)
    : option (ExhibitionProduct.t * MockDatabase) :=
  assignExhibitionProductStatus db exhibitionProductId
    ExhibitionProduct.approved.

(** Reject an exhibition product (changes status to 'rejected'). *)
Definition rejectExhibitionProduct (db : MockDatabase)
    (exhibitionProductId : string)
    : option (ExhibitionProduct.t * MockDatabase) :=
  assignExhibitionProductStatus db exhibitionProductId
    ExhibitionProduct.rejected.

End MockDB.

(** ** Requests, responses and the environment of a call *)

(** What [NextResponse.json] is given.  The [details] template of the
    unapproved-product error is kept as its two interpolated values,
    [product?.name] and [item.productId]. *)
Inductive payload :=
| PError (error : string)
| PUnapprovedProduct (productName : option string) (productId : jsval)
| POrder (order : Order)
| PProduct (product : Product.t)
| PExhibition (exhibition : Exhibition.t)
| PExhibitionProduct (exhibitionProduct : ExhibitionProduct.t)
| PProductList (productList : ProductList.t)
| PSuccess
| PMessage (message : string).

Record NextResponse := json {
  res_body : payload;
  res_status : nat
}.

(** [random n] is the string the n-th [Math.random()] expression of the call
    evaluates to, after the conversion written at its call site; [now] is
    [new Date().toISOString()]. *)
Record Env := mkEnv {
  random : nat -> string;
  now : string
}.

(** [request.headers.get('x-user-id')]: [None] is [null]. *)
Abbreviation Headers := (option string).

(** What a reading route answers: [NextResponse.json(data)] with the default
    status 200, or the response that refuses the request. *)
Inductive Answer (A : Type) :=
| Data (data : A)
| Refused (response : NextResponse).

Arguments Data {A} data.
Arguments Refused {A} response.

(** The three fields the reading routes copy from the product of a row,
    [product?.name], [product?.image] and [product?.unit]; an absent product
    and an absent image both read as [undefined]. *)
Record ProductDetails := mkDetails {
  productName : option string;
  productImage : option string;
  productUnit : option string
}.

Definition details_of (product : option Product.t) : ProductDetails :=
  {| productName := Product.name <$> product;
     productImage := product ≫= Product.image;
     productUnit := Product.unit <$> product |}.

(** ** [src/middleware/rbac.ts] *)

Module Rbac.

Record AuthContext := mkContext { user : User.t }.

Definition authenticateUser (db : MockDatabase) (x_user_id : Headers)
    : option AuthContext :=
  let userId :=
    match x_user_id with
    | Some h => if String.eqb h "" then "u3" else h
    | None => "u3"
    end in
  match MockDB.getUserById db userId with
  | None => None
  | Some u => Some (mkContext u)
  end.

Definition hasRole (context : option AuthContext)
    (allowedRoles : list UserRole) : bool :=
  match context with
  | None => false
  | Some c => includes allowedRoles (User.role (user c))
  end.

Inductive AuthResult :=
| Authorized (context : AuthContext)
| Unauthorized (response : NextResponse).

Definition requireAuth (db : MockDatabase) (x_user_id : Headers)
    : AuthResult :=
  match authenticateUser db x_user_id with
  | None => Unauthorized (json (PError "Unauthorized") 401)
  | Some context => Authorized context
  end.

Definition requireRoles (db : MockDatabase) (x_user_id : Headers)
    (allowedRoles : list UserRole) : AuthResult :=
  match requireAuth db x_user_id with
  | Unauthorized response => Unauthorized response
  | Authorized context =>
      if negb (hasRole (Some context) allowedRoles)
      then Unauthorized
             (json (PError "Forbidden - Insufficient permissions") 403)
      else Authorized context
  end.

(** The keys of the [PERMISSIONS] constant. *)
Inductive Permission :=
| PRODUCT_CREATE | PRODUCT_READ | PRODUCT_UPDATE | PRODUCT_DELETE
| EXHIBITION_CREATE | EXHIBITION_READ | EXHIBITION_UPDATE
| APPROVAL_APPROVE | APPROVAL_READ
| ORDER_CREATE | ORDER_READ | ORDER_UPDATE.

Definition PERMISSIONS (p : Permission) : list UserRole :=
  match p with
  | PRODUCT_CREATE => ["ADMIN"; "MANAGER"; "USER"]
  | PRODUCT_READ => ["ADMIN"; "MANAGER"; "USER"; "VIEWER"]
  | PRODUCT_UPDATE => ["ADMIN"; "MANAGER"]
  | PRODUCT_DELETE => ["ADMIN"]
  | EXHIBITION_CREATE => ["ADMIN"; "MANAGER"]
  | EXHIBITION_READ => ["ADMIN"; "MANAGER"; "USER"; "VIEWER"]
  | EXHIBITION_UPDATE => ["ADMIN"; "MANAGER"]
  | APPROVAL_APPROVE => ["ADMIN"; "MANAGER"]
  | APPROVAL_READ => ["ADMIN"; "MANAGER"; "USER"; "VIEWER"]
  | ORDER_CREATE => ["ADMIN"; "MANAGER"; "USER"]
  | ORDER_READ => ["ADMIN"; "MANAGER"; "USER"; "VIEWER"]
  | ORDER_UPDATE => ["ADMIN"; "MANAGER"]
  end.

Definition checkPermission (context : option AuthContext)
    (permission : list UserRole) : bool :=
  hasRole context permission.

End Rbac.

(** ** [src/app/api/orders/route.ts] *)

Module OrdersRoute.

(** How the validation loop ends: it falls through, it returns the 400
    response for [item], or reading [item.productId] throws. *)
Inductive Validation :=
| AllApproved
| NotApproved (product : option Product.t) (productId : jsval)
| Thrown.

(** [for (const item of items) { ... }] *)
Fixpoint validate (db : MockDatabase) (exhibitionId : jsval)
    (items : list jsval) : Validation :=
  match items with
  | [] => AllApproved
  | item :: rest =>
      match get_prop item "productId" with
      | None => Thrown
      | Some productId =>
          let isApproved :=
            MockDB.isProductApprovedForExhibition db exhibitionId productId in
          if negb isApproved
          then NotApproved (MockDB.getProductById db productId) productId
          else validate db exhibitionId rest
      end
  end.

(** [{ id: ..., exhibitionId, createdAt: ..., status: 'DRAFT', ...body }]:
    the keys of [body] win over the four written before the spread. *)
Definition newOrder (env : Env) (exhibitionId : jsval) (body : jsobj)
    : Order :=
  body ∪ {[ "id" := VStr (random env 0);
            "exhibitionId" := exhibitionId;
            "createdAt" := VStr (now env);
            "status" := VStr "DRAFT" ]}.

Definition POST (db : MockDatabase) (env : Env) (x_user_id : Headers)
    (body : jsobj) : NextResponse * MockDatabase :=
  match Rbac.requireRoles db x_user_id (Rbac.PERMISSIONS Rbac.ORDER_CREATE) with
  | Rbac.Unauthorized response => (response, db)
  | Rbac.Authorized _ =>
      let exhibitionId := destructure body "exhibitionId" in
      let items := destructure body "items" in
      let validation :=
        if truthy exhibitionId && truthy items && isArray items
        then validate db exhibitionId (array_elems items)
        else AllApproved in
      match validation with
      | Thrown => (json (PError "Failed to create order") 500, db)
      | NotApproved product productId =>
          (json (PUnapprovedProduct (Product.name <$> product) productId) 400,
           db)
      | AllApproved =>
          let '(createdOrder, db') :=
            MockDB.addOrder db (newOrder env exhibitionId body) in
          (json (POrder createdOrder) 201, db')
      end
  end.

(** An element of [allItems]: the item, the details of its product and the
    supplier of its list. *)
Record OrderLine := mkLine {
  line_item : ProductListItem.t;
  line_details : ProductDetails;
  line_supplierId : string
}.

(** An element of [exhibitionsWithOrders]: the exhibition, under the four
    fields written after the spread; [status] hides the status of the
    exhibition. *)
Record ExhibitionWithOrders := mkSummary {
  exhibition : Exhibition.t;
  orders : list OrderLine;
  totalValue : Z;
  totalQuantity : Z;
  status : string
}.

(** The three accumulators of the callback. *)
Record Totals := mkTotals {
  acc_totalValue : Z;
  acc_totalQuantity : Z;
  acc_allItems : list OrderLine
}.

(** [items.forEach(item => { totalValue += ...; allItems.push(...) })] *)
Definition forEach_line (db : MockDatabase) (productList : ProductList.t)
    (acc : Totals) (items : list ProductListItem.t) : Totals :=
  fold_left
    (fun acc item =>
       let product :=
         MockDB.getProductById db (VStr (ProductListItem.productId item)) in
       mkTotals
         (acc_totalValue acc
          + (if (ProductListItem.price item =? 0)%Z then 0
             else ProductListItem.price item)
            * ProductListItem.quantity item)%Z
         (acc_totalQuantity acc)
         (acc_allItems acc
          ++ [mkLine item (details_of product)
                (ProductList.supplierId productList)]))
    items acc.

(** [exhibitionLists.forEach(list => { totalQuantity += ...; ... })] *)
Definition forEach_list (db : MockDatabase) (acc : Totals)
    (exhibitionLists : list ProductList.t) : Totals :=
  fold_left
    (fun acc productList =>
       let acc' :=
         mkTotals (acc_totalValue acc)
           (acc_totalQuantity acc + ProductList.totalQuantity productList)%Z
           (acc_allItems acc) in
       forEach_line db productList acc'
         (MockDB.getProductListItemsByProductListId db
            (ProductList.id productList)))
    exhibitionLists acc.

Definition summary (db : MockDatabase) (approvedLists : list ProductList.t)
    (exhibition : Exhibition.t) : ExhibitionWithOrders :=
  let exhibitionLists :=
    List.filter
      (fun pl => String.eqb (ProductList.exhibitionId pl)
                   (Exhibition.exhibitionId exhibition))
      approvedLists in
  let totals := forEach_list db (mkTotals 0 0 []) exhibitionLists in
  mkSummary exhibition (acc_allItems totals) (acc_totalValue totals)
    (acc_totalQuantity totals)
    (if (0 <? length exhibitionLists)%nat then "Active" else "Pending").

Definition GET (db : MockDatabase) (x_user_id : Headers)
    : Answer (list ExhibitionWithOrders) :=
  match Rbac.requireRoles db x_user_id (Rbac.PERMISSIONS Rbac.ORDER_READ) with
  | Rbac.Unauthorized response => Refused response
  | Rbac.Authorized _ =>
      let exhibitions := MockDB.getExhibitions db in
      let allProductLists := MockDB.getProductLists db in
      let approvedLists :=
        List.filter (fun pl => String.eqb (ProductList.status pl) "approved")
          allProductLists in
      Data (map (summary db approvedLists) exhibitions)
  end.

End OrdersRoute.

(** ** [src/app/api/exhibitions/approve/route.ts] *)

Module ApproveRoute.

(** [['approved', 'rejected'].includes(status)], with the status literal
    that [{ status }] then carries. *)
Definition included (status : jsval) : option ExhibitionProduct.Status :=
  match status with
  | VStr s =>
      if String.eqb s "approved" then Some ExhibitionProduct.approved
      else if String.eqb s "rejected" then Some ExhibitionProduct.rejected
      else None
  | _ => None
  end.

Definition POST (db : MockDatabase) (x_user_id : Headers) (body : jsobj)
    : NextResponse * MockDatabase :=
  match Rbac.requireRoles db x_user_id
          (Rbac.PERMISSIONS Rbac.APPROVAL_APPROVE) with
  | Rbac.Unauthorized response => (response, db)
  | Rbac.Authorized _ =>
      let id := destructure body "id" in
      let status := destructure body "status" in
      match included status with
      | None => (json (PError "Invalid status") 400, db)
      | Some status =>
          match MockDB.updateExhibitionProduct db id
                  (ExhibitionProduct.only_status status) with
          | None => (json (PError "Product not found") 404, db)
          | Some (updatedProduct, db') =>
              (json (PExhibitionProduct updatedProduct) 200, db')
          end
      end
  end.

(** A pending row with the name of its exhibition and the name and image of
    its product. *)
Record PendingProduct := mkPending {
  row : ExhibitionProduct.t;
  exhibitionName : option string;
  pending_productName : option string;
  pending_productImage : option string
}.

Definition GET (db : MockDatabase) (x_user_id : Headers)
    : Answer (list PendingProduct) :=
  match Rbac.requireRoles db x_user_id
          (Rbac.PERMISSIONS Rbac.APPROVAL_READ) with
  | Rbac.Unauthorized response => Refused response
  | Rbac.Authorized _ =>
      let pendingProducts := MockDB.getPendingExhibitionProducts db in
      Data
        (map
           (fun ep =>
              let exhibition :=
                MockDB.getExhibitionByExhibitionId db
                  (ExhibitionProduct.exhibitionId ep) in
              let product :=
                MockDB.getProductById db
                  (VStr (ExhibitionProduct.productId ep)) in
              mkPending ep (Exhibition.name <$> exhibition)
                (Product.name <$> product) (product ≫= Product.image))
           pendingProducts)
  end.

End ApproveRoute.

(** ** [src/app/api/exhibitions/[id]/products/route.ts] and
       [src/app/api/exhibitions/route.ts] *)

(** An element [p] of the [products] array of a body. *)
Record ProductInput := mkProductInput {
  in_productId : string;
  in_quantity : Z;
  in_price : option Z
}.

Module ExhibitionProductsRoute.

(** The row built for [p]; [id] is the random identifier drawn for it. *)
Definition newExhibitionProduct (id exhibitionId : string)
    (p : ProductInput) : ExhibitionProduct.t :=
  {| ExhibitionProduct.id := id;
     ExhibitionProduct.exhibitionId := exhibitionId;
     ExhibitionProduct.productId := in_productId p;
     ExhibitionProduct.quantity := in_quantity p;
     ExhibitionProduct.price := in_price p;
     ExhibitionProduct.status := ExhibitionProduct.pending;
     ExhibitionProduct.supplierId := "current-user";
     ExhibitionProduct.complianceNotes := None |}.

(** [products.forEach(p => { ...; mockDb.addExhibitionProduct(...) })];
    [n] counts the random draws made so far in the call. *)
Fixpoint forEach_product (db : MockDatabase) (env : Env) (n : nat)
    (exhibitionId : string) (products : list ProductInput) : MockDatabase :=
  match products with
  | [] => db
  | p :: rest =>
      let '(_, db') :=
        MockDB.addExhibitionProduct db
          (newExhibitionProduct (random env n) exhibitionId p) in
      forEach_product db' env (S n) exhibitionId rest
  end.

(** [products] is [None] when the body has no [products] array. *)
Definition POST (db : MockDatabase) (env : Env) (x_user_id : Headers)
    (exhibitionId : string) (products : option (list ProductInput))
    : NextResponse * MockDatabase :=
  match Rbac.requireRoles db x_user_id
          (Rbac.PERMISSIONS Rbac.EXHIBITION_CREATE) with
  | Rbac.Unauthorized response => (response, db)
  | Rbac.Authorized _ =>
      let db' :=
        match products with
        | Some products => forEach_product db env 0 exhibitionId products
        | None => db
        end in
      (json PSuccess 201, db')
  end.

(** A row with the details of its product. *)
Record EnrichedProduct := mkEnriched {
  row : ExhibitionProduct.t;
  details : ProductDetails
}.

Definition GET (db : MockDatabase) (x_user_id : Headers)
    (exhibitionId : string) : Answer (list EnrichedProduct) :=
  match Rbac.requireRoles db x_user_id
          (Rbac.PERMISSIONS Rbac.EXHIBITION_READ) with
  | Rbac.Unauthorized response => Refused response
  | Rbac.Authorized _ =>
      let exhibitionProducts :=
        MockDB.getExhibitionProductsByExhibitionId db exhibitionId in
      Data
        (map
           (fun ep =>
              mkEnriched ep
                (details_of
                   (MockDB.getProductById db
                      (VStr (ExhibitionProduct.productId ep)))))
           exhibitionProducts)
  end.

End ExhibitionProductsRoute.

Module ExhibitionsRoute.

Record Body := mkBody {
  name : string;
  description : option string;
  startDate : option string;
  endDate : option string;
  products : option (list ProductInput)
}.

(** The first draw is the four digits of the exhibition code, the second
    the internal id, the following ones the ids of the product rows. *)
Definition POST (db : MockDatabase) (env : Env) (x_user_id : Headers)
    (body : Body) : NextResponse * MockDatabase :=
  match Rbac.requireRoles db x_user_id
          (Rbac.PERMISSIONS Rbac.EXHIBITION_CREATE) with
  | Rbac.Unauthorized response => (response, db)
  | Rbac.Authorized _ =>
      let exhibitionId := "EX-" ++ random env 0 in
      let '(newExhibition, db1) :=
        MockDB.addExhibition db
          {| Exhibition.id := random env 1;
             Exhibition.exhibitionId := exhibitionId;
             Exhibition.name := name body;
             Exhibition.description := description body;
             Exhibition.startDate := startDate body;
             Exhibition.endDate := endDate body;
             Exhibition.status := Some Exhibition.PLANNING |} in
      let db2 :=
        match products body with
        | Some products =>
            ExhibitionProductsRoute.forEach_product db1 env 2
              (Exhibition.exhibitionId newExhibition) products
        | None => db1
        end in
      (json (PExhibition newExhibition) 201, db2)
  end.

Definition GET (db : MockDatabase) (x_user_id : Headers)
    : Answer (list Exhibition.t) :=
  match Rbac.requireRoles db x_user_id
          (Rbac.PERMISSIONS Rbac.EXHIBITION_READ) with
  | Rbac.Unauthorized response => Refused response
  | Rbac.Authorized _ => Data (MockDB.getExhibitions db)
  end.

End ExhibitionsRoute.

(** ** [src/app/api/product-lists/route.ts] and
       [src/app/api/product-lists/[id]/route.ts] *)

(** [items.reduce((sum, item) => sum + item.quantity, 0)] *)
Definition reduce_quantity (items : list ProductInput) : Z :=
  fold_left (fun sum item => (sum + in_quantity item)%Z) items 0%Z.

(** [item.price || 0] *)
Definition price_or_0 (price : option Z) : Z :=
  match price with
  | Some p => if (p =? 0)%Z then 0%Z else p
  | None => 0%Z
  end.

Definition newItem (id productListId : string) (item : ProductInput)
    : ProductListItem.t :=
  {| ProductListItem.id := id;
     ProductListItem.productListId := productListId;
     ProductListItem.productId := in_productId item;
     ProductListItem.quantity := in_quantity item;
     ProductListItem.price := price_or_0 (in_price item) |}.

(** [items.forEach(item => { ...; mockDb.addProductListItem(newItem) })] *)
Fixpoint forEach_item (db : MockDatabase) (env : Env) (n : nat)
    (productListId : string) (items : list ProductInput) : MockDatabase :=
  match items with
  | [] => db
  | item :: rest =>
      let '(_, db') :=
        MockDB.addProductListItem db
          (newItem (random env n) productListId item) in
      forEach_item db' env (S n) productListId rest
  end.

Module ProductListsRoute.

(** A field is [None] when the body lacks it; [items] is [None] also when
    it is no array. *)
Record Body := mkBody {
  exhibitionId : option string;
  supplierId : option string;
  items : option (list ProductInput)
}.

Definition POST (db : MockDatabase) (env : Env) (x_user_id : Headers)
    (body : Body) : NextResponse * MockDatabase :=
  match Rbac.requireRoles db x_user_id
          (Rbac.PERMISSIONS Rbac.ORDER_CREATE) with
  | Rbac.Unauthorized response => (response, db)
  | Rbac.Authorized _ =>
      match exhibitionId body, supplierId body, items body with
      | Some exhibitionId, Some supplierId, Some items =>
          if String.eqb exhibitionId "" || String.eqb supplierId ""
          then (json (PError "Invalid input") 400, db)
          else
            let totalQuantity := reduce_quantity items in
            let '(newProductList, db1) :=
              MockDB.addProductList db
                {| ProductList.id := random env 0;
                   ProductList.exhibitionId := exhibitionId;
                   ProductList.supplierId := supplierId;
                   ProductList.status := "pending";
                   ProductList.createdAt := now env;
                   ProductList.totalQuantity := totalQuantity |} in
            let db2 :=
              forEach_item db1 env 1 (ProductList.id newProductList) items in
            (json (PProductList newProductList) 201, db2)
      | _, _, _ => (json (PError "Invalid input") 400, db)
      end
  end.

(** [exhibitionId] is [searchParams.get('exhibitionId')], [None] for
    [null]. *)
Definition GET (db : MockDatabase) (x_user_id : Headers)
    (exhibitionId : option string) : Answer (list ProductList.t) :=
  match Rbac.requireRoles db x_user_id (Rbac.PERMISSIONS Rbac.ORDER_READ) with
  | Rbac.Unauthorized response => Refused response
  | Rbac.Authorized _ =>
      let lists := MockDB.getProductLists db in
      let lists :=
        match exhibitionId with
        | Some exhibitionId =>
            if String.eqb exhibitionId "" then lists
            else
              List.filter
                (fun l => String.eqb (ProductList.exhibitionId l) exhibitionId)
                lists
        | None => lists
        end in
      Data lists
  end.

End ProductListsRoute.

Module ProductListRoute.

Record Body := mkBody {
  status : option string;
  items : option (list ProductInput)
}.

Definition PUT (db : MockDatabase) (env : Env) (x_user_id : Headers)
    (id : string) (body : Body) : NextResponse * MockDatabase :=
  match Rbac.requireRoles db x_user_id
          (Rbac.PERMISSIONS Rbac.ORDER_UPDATE) with
  | Rbac.Unauthorized response => (response, db)
  | Rbac.Authorized _ =>
      match MockDB.getProductListById db id with
      | None => (json (PError "Product list not found") 404, db)
      | Some list =>
          let db1 :=
            match status body with
            | Some status =>
                if String.eqb status "" then db
                else
                  match MockDB.updateProductList db (ProductList.id list)
                          (ProductList.only_status status) with
                  | Some (_, db') => db'
                  | None => db
                  end
            | None => db
            end in
          let db2 :=
            match items body with
            | Some items =>
                let totalQuantity := reduce_quantity items in
                let db' :=
                  match MockDB.updateProductList db1 (ProductList.id list)
                          (ProductList.only_totalQuantity totalQuantity) with
                  | Some (_, db') => db'
                  | None => db1
                  end in
                let db'' :=
                  MockDB.deleteProductListItemsByProductListId db'
                    (ProductList.id list) in
                forEach_item db'' env 0 (ProductList.id list) items
            | None => db1
            end in
          (json PSuccess 200, db2)
      end
  end.

(** An item with the name, id, unit and image of its product;
    [productSKU] is [product?.id]. *)
Record EnrichedItem := mkEnrichedItem {
  item : ProductListItem.t;
  item_details : ProductDetails;
  productSKU : option string
}.

(** [{ ...list, items: enrichedItems }] *)
Record ListWithItems := mkListWithItems {
  productList : ProductList.t;
  enrichedItems : list EnrichedItem
}.

Definition GET (db : MockDatabase) (x_user_id : Headers) (id : string)
    : Answer ListWithItems :=
  match Rbac.requireRoles db x_user_id (Rbac.PERMISSIONS Rbac.ORDER_READ) with
  | Rbac.Unauthorized response => Refused response
  | Rbac.Authorized _ =>
      match MockDB.getProductListById db id with
      | None => Refused (json (PError "Product list not found") 404)
      | Some productList =>
          let items :=
            MockDB.getProductListItemsByProductListId db
              (ProductList.id productList) in
          Data
            (mkListWithItems productList
               (map
                  (fun item =>
                     let product :=
                       MockDB.getProductById db
                         (VStr (ProductListItem.productId item)) in
                     mkEnrichedItem item (details_of product)
                       (Product.id <$> product))
                  items))
      end
  end.

End ProductListRoute.

(** ** [src/app/api/products/route.ts] and
       [src/app/api/products/[id]/route.ts] *)

Module ProductsRoute.

(** The form fields after the conversions of the handler: the numeric
    fields are the results of [Number(...)], [image] is the path under
    which an uploaded file was stored, if one was sent. *)
Record Form := mkForm {
  id : option string;
  name : string;
  category : string;
  buyingPrice : Z;
  quantity : Z;
  unit : string;
  thresholdValue : Z;
  expiryDate : string;
  availability : string;
  image : option string
}.

Definition POST (db : MockDatabase) (env : Env) (x_user_id : Headers)
    (formData : Form) : NextResponse * MockDatabase :=
  match Rbac.requireRoles db x_user_id
          (Rbac.PERMISSIONS Rbac.PRODUCT_CREATE) with
  | Rbac.Unauthorized response => (response, db)
  | Rbac.Authorized _ =>
      let imagePath := default "/placeholder.png" (image formData) in
      let newProduct :=
        {| Product.id :=
             match id formData with
             | Some id => if String.eqb id "" then random env 0 else id
             | None => random env 0
             end;
           Product.name := name formData;
           Product.category := category formData;
           Product.buyingPrice := buyingPrice formData;
           Product.quantity := quantity formData;
           Product.unit := unit formData;
           Product.thresholdValue := thresholdValue formData;
           Product.expiryDate := expiryDate formData;
           Product.availability := availability formData;
           Product.image := Some imagePath;
           Product.sku :=
             Some ("SKU-" ++
                   match id formData with
                   | Some id => if String.eqb id "" then random env 1 else id
                   | None => random env 1
                   end);
           Product.description := None;
           Product.packagingId := None;
           Product.isApproved := Some false |} in
      let '(createdProduct, db') := MockDB.addProduct db newProduct in
      (json (PProduct createdProduct) 201, db')
  end.

Definition GET (db : MockDatabase) (x_user_id : Headers)
    : Answer (list Product.t) :=
  match Rbac.requireRoles db x_user_id
          (Rbac.PERMISSIONS Rbac.PRODUCT_READ) with
  | Rbac.Unauthorized response => Refused response
  | Rbac.Authorized _ => Data (MockDB.getProducts db)
  end.

End ProductsRoute.

Module ProductRoute.

Definition PUT (db : MockDatabase) (x_user_id : Headers) (id : string)
    (body : Product.partial) : NextResponse * MockDatabase :=
  match Rbac.requireRoles db x_user_id
          (Rbac.PERMISSIONS Rbac.PRODUCT_UPDATE) with
  | Rbac.Unauthorized response => (response, db)
  | Rbac.Authorized _ =>
      match MockDB.updateProduct db id body with
      | None => (json (PError "Product not found") 404, db)
      | Some (updatedProduct, db') => (json (PProduct updatedProduct) 200, db')
      end
  end.

Definition DELETE (db : MockDatabase) (x_user_id : Headers) (id : string)
    : NextResponse * MockDatabase :=
  match Rbac.requireRoles db x_user_id
          (Rbac.PERMISSIONS Rbac.PRODUCT_DELETE) with
  | Rbac.Unauthorized response => (response, db)
  | Rbac.Authorized _ =>
      let '(success, db') := MockDB.deleteProduct db id in
      if negb success then (json (PError "Product not found") 404, db')
      else (json (PMessage "Product deleted") 200, db')
  end.

Definition GET (db : MockDatabase) (x_user_id : Headers) (id : string)
    : Answer Product.t :=
  match Rbac.requireRoles db x_user_id
          (Rbac.PERMISSIONS Rbac.PRODUCT_READ) with
  | Rbac.Unauthorized response => Refused response
  | Rbac.Authorized _ =>
      match MockDB.getProductById db (VStr id) with
      | None => Refused (json (PError "Product not found") 404)
      | Some product => Data product
      end
  end.

End ProductRoute.

(** ** The public operations

    The routes that write to the store; the [GET] routes only read it. *)

Inductive Operation :=
| CreateProduct (formData : ProductsRoute.Form)
| UpdateProduct (id : string) (body : Product.partial)
| DeleteProduct (id : string)
| CreateExhibition (body : ExhibitionsRoute.Body)
| AddExhibitionProducts (exhibitionId : string)
    (products : option (list ProductInput))
| SetApproval (body : jsobj)
| CreateOrder (body : jsobj)
| CreateProductList (body : ProductListsRoute.Body)
| UpdateProductList (id : string) (body : ProductListRoute.Body).

(** A request: who sends it, what the call draws, what it asks. *)
Record Request := mkRequest {
  x_user_id : Headers;
  env : Env;
  operation : Operation
}.

Definition handle (db : MockDatabase) (r : Request)
    : NextResponse * MockDatabase :=
  match operation r with
  | CreateProduct formData =>
      ProductsRoute.POST db (env r) (x_user_id r) formData
  | UpdateProduct id body => ProductRoute.PUT db (x_user_id r) id body
  | DeleteProduct id => ProductRoute.DELETE db (x_user_id r) id
  | CreateExhibition body =>
      ExhibitionsRoute.POST db (env r) (x_user_id r) body
  | AddExhibitionProducts exhibitionId products =>
      ExhibitionProductsRoute.POST db (env r) (x_user_id r) exhibitionId
        products
  | SetApproval body => ApproveRoute.POST db (x_user_id r) body
  | CreateOrder body => OrdersRoute.POST db (env r) (x_user_id r) body
  | CreateProductList body =>
      ProductListsRoute.POST db (env r) (x_user_id r) body
  | UpdateProductList id body =>
      ProductListRoute.PUT db (env r) (x_user_id r) id body
  end.

(** The store after a sequence of requests. *)
Definition run (db : MockDatabase) (requests : list Request) : MockDatabase :=
  fold_left (fun db r => snd (handle db r)) requests db.

(** ** The permission table of the specification (section 4.1)

    Four columns and twelve rows.  The specification heads the third column
    OPERATOR. *)

Inductive Column := colADMIN | colMANAGER | colTHIRD | colVIEWER.

Definition table_4_1 (p : Rbac.Permission) (c : Column) : bool :=
  match p, c with
  | Rbac.PRODUCT_CREATE, colADMIN => true
  | Rbac.PRODUCT_CREATE, colMANAGER => true
  | Rbac.PRODUCT_CREATE, colTHIRD => true
  | Rbac.PRODUCT_CREATE, colVIEWER => false
  | Rbac.PRODUCT_READ, _ => true
  | Rbac.PRODUCT_UPDATE, colADMIN => true
  | Rbac.PRODUCT_UPDATE, colMANAGER => true
  | Rbac.PRODUCT_UPDATE, colTHIRD => false
  | Rbac.PRODUCT_UPDATE, colVIEWER => false
  | Rbac.PRODUCT_DELETE, colADMIN => true
  | Rbac.PRODUCT_DELETE, colMANAGER => false
  | Rbac.PRODUCT_DELETE, colTHIRD => false
  | Rbac.PRODUCT_DELETE, colVIEWER => false
  | Rbac.EXHIBITION_CREATE, colADMIN => true
  | Rbac.EXHIBITION_CREATE, colMANAGER => true
  | Rbac.EXHIBITION_CREATE, colTHIRD => false
  | Rbac.EXHIBITION_CREATE, colVIEWER => false
  | Rbac.EXHIBITION_READ, _ => true
  | Rbac.EXHIBITION_UPDATE, colADMIN => true
  | Rbac.EXHIBITION_UPDATE, colMANAGER => true
  | Rbac.EXHIBITION_UPDATE, colTHIRD => false
  | Rbac.EXHIBITION_UPDATE, colVIEWER => false
  | Rbac.APPROVAL_APPROVE, colADMIN => true
  | Rbac.APPROVAL_APPROVE, colMANAGER => true
  | Rbac.APPROVAL_APPROVE, colTHIRD => false
  | Rbac.APPROVAL_APPROVE, colVIEWER => false
  | Rbac.APPROVAL_READ, _ => true
  | Rbac.ORDER_CREATE, colADMIN => true
  | Rbac.ORDER_CREATE, colMANAGER => true
  | Rbac.ORDER_CREATE, colTHIRD => true
  | Rbac.ORDER_CREATE, colVIEWER => false
  | Rbac.ORDER_READ, _ => true
  | Rbac.ORDER_UPDATE, colADMIN => true
  | Rbac.ORDER_UPDATE, colMANAGER => true
  | Rbac.ORDER_UPDATE, colTHIRD => false
  | Rbac.ORDER_UPDATE, colVIEWER => false
  end.

(** The column of a role name, the third column being headed [third]. *)
Definition column_of (third : string) (role : string) : option Column :=
  if String.eqb role "ADMIN" then Some colADMIN
  else if String.eqb role "MANAGER" then Some colMANAGER
  else if String.eqb role third then Some colTHIRD
  else if String.eqb role "VIEWER" then Some colVIEWER
  else None.

(** The tabulated answer, deny for a role that heads no column. *)
Definition tabulated (third : string) (role : string) (p : Rbac.Permission)
    : bool :=
  match column_of third role with
  | Some c => table_4_1 p c
  | None => false
  end.

(** The table as the specification words it. *)
Definition spec_evaluate : string -> Rbac.Permission -> bool :=
  tabulated "OPERATOR".

(** The evaluator of the code: the role check of [requireRoles] for an actor
    [u] and the allow-list of a capability. *)
Definition evaluate (u : User.t) (p : Rbac.Permission) : bool :=
  Rbac.checkPermission (Some (Rbac.mkContext u)) (Rbac.PERMISSIONS p).

(** The seeded actors. *)
Definition u1 : User.t := User.mk "u1" "admin" "ADMIN" "Super Admin".
Definition u2 : User.t := User.mk "u2" "manager" "MANAGER" "Project Manager".
Definition u3 : User.t := User.mk "u3" "staff" "USER" "Operational Staff".
Definition u4 : User.t := User.mk "u4" "viewer" "VIEWER" "Read Only Viewer".

(** ** The approval gate in the words of the specification *)

(** [item] names a product that has a row for the exhibition [E] whose
    status is approved. *)
Definition has_approved_row (db : MockDatabase) (E : string) (item : jsval)
    : Prop :=
  exists ep,
    ep ∈ exhibitionProducts db
    /\ ExhibitionProduct.exhibitionId ep = E
    /\ get_prop item "productId" = Some (VStr (ExhibitionProduct.productId ep))
    /\ ExhibitionProduct.status ep = ExhibitionProduct.approved.

(** The earliest row of the table for the exhibition [E] and the product
    [item] names is approved. *)
Definition first_row_approved (db : MockDatabase) (E : string) (item : jsval)
    : Prop :=
  exists i ep,
    exhibitionProducts db !! i = Some ep
    /\ ExhibitionProduct.exhibitionId ep = E
    /\ get_prop item "productId" = Some (VStr (ExhibitionProduct.productId ep))
    /\ ExhibitionProduct.status ep = ExhibitionProduct.approved
    /\ forall j ep',
         j < i -> exhibitionProducts db !! j = Some ep' ->
         ~ (ExhibitionProduct.exhibitionId ep' = E
            /\ ExhibitionProduct.productId ep'
               = ExhibitionProduct.productId ep).

(** The convention I4: at most one row per exhibition and product. *)
Definition unique_rows (db : MockDatabase) : Prop :=
  forall i j a b,
    exhibitionProducts db !! i = Some a ->
    exhibitionProducts db !! j = Some b ->
    ExhibitionProduct.exhibitionId a = ExhibitionProduct.exhibitionId b ->
    ExhibitionProduct.productId a = ExhibitionProduct.productId b ->
    i = j.

(** What one turn of the validation loop decides for [item]. *)
Definition item_passes (db : MockDatabase) (E : string) (item : jsval)
    : bool :=
  match get_prop item "productId" with
  | Some productId =>
      MockDB.isProductApprovedForExhibition db (VStr E) productId
  | None => false
  end.

(** A fixed environment and two requests of a manager that leave the
    exhibition EX-2941 with two rows for the product 456568: the seeded one,
    pending, and a later one, approved. *)
Definition env0 : Env := mkEnv (fun _ => "dup000001") "2025-12-18T00:00:00.000Z".

Definition duplicate_row_requests : list Request :=
  [ mkRequest (Some "u2") env0
      (AddExhibitionProducts "EX-2941"
         (Some [mkProductInput "456568" 1 None]));
    mkRequest (Some "u2") env0
      (SetApproval {[ "id" := VStr "dup000001"; "status" := VStr "approved" ]}) ].


(** ** The totals of a product list in the words of the specification *)

(** The sum of a list of quantities. *)
Definition sum_Z (l : list Z) : Z := foldr Z.add 0%Z l.





(** ** The scenarios of the specification (section 8) *)

Definition widget_form : ProductsRoute.Form :=
  ProductsRoute.mkForm (Some "Widget") "Widget" "Tools" 10 100 "Pieces" 5
    "2026-01-01" "In-stock" None.

Definition env_row : Env :=
  mkEnv (fun _ => "row000001") "2025-12-18T00:00:00.000Z".

Definition widget_order : jsobj :=
  {[ "exhibitionId" := VStr "EX-1000";
     "items" := VArr [VObj {[ "productId" := VStr "Widget";
                              "quantity" := VNum 5 ]}] ]}.

(** Create the product, link it to the exhibition EX-1000. *)
Definition widget_setup : list Request :=
  [ mkRequest None env_row (CreateProduct widget_form);
    mkRequest (Some "u2") env_row
      (AddExhibitionProducts "EX-1000"
         (Some [mkProductInput "Widget" 5 None])) ].

Definition widget_approval : Request :=
  mkRequest (Some "u2") env_row
    (SetApproval {[ "id" := VStr "row000001"; "status" := VStr "approved" ]}).

(** ** The capability each writing route asks for *)

(** The constant each handler passes to [requireRoles]. *)
Definition required_permission (op : Operation) : Rbac.Permission :=
  match op with
  | CreateProduct _ => Rbac.PRODUCT_CREATE
  | UpdateProduct _ _ => Rbac.PRODUCT_UPDATE
  | DeleteProduct _ => Rbac.PRODUCT_DELETE
  | CreateExhibition _ => Rbac.EXHIBITION_CREATE
  | AddExhibitionProducts _ _ => Rbac.EXHIBITION_CREATE
  | SetApproval _ => Rbac.APPROVAL_APPROVE
  | CreateOrder _ => Rbac.ORDER_CREATE
  | CreateProductList _ => Rbac.ORDER_CREATE
  | UpdateProductList _ _ => Rbac.ORDER_UPDATE
  end.

(** A row is the row of the exhibition [E] and the product [P]. *)
Definition row_of (E P : string) (ep : ExhibitionProduct.t) : Prop :=
  ExhibitionProduct.exhibitionId ep = E /\ ExhibitionProduct.productId ep = P.

(** The row at position [i] is the earliest row of its exhibition and
    product. *)
Definition earliest_of_pair (db : MockDatabase) (i : nat) : Prop :=
  exists ep,
    exhibitionProducts db !! i = Some ep
    /\ forall j ep', j < i -> exhibitionProducts db !! j = Some ep' ->
         ~ row_of (ExhibitionProduct.exhibitionId ep)
             (ExhibitionProduct.productId ep) ep'.

(** The body of an approval request. *)
Definition approval_body (id status : string) : jsobj :=
  {[ "id" := VStr id; "status" := VStr status ]}.

(** The row is pending. *)
Definition pendingb (ep : ExhibitionProduct.t) : bool :=
  ExhibitionProduct.Status_eqb (ExhibitionProduct.status ep)
    ExhibitionProduct.pending.

(** [price * quantity] summed over order lines, a zero price counting as
    zero. *)
Definition lines_value (lines : list OrdersRoute.OrderLine) : Z :=
  sum_Z ((fun l =>
            (ProductListItem.price (OrdersRoute.line_item l)
             * ProductListItem.quantity (OrdersRoute.line_item l))%Z)
         <$> lines).


(** The approved lists of an exhibition code, in table order. *)
Definition approved_lists_of (db : MockDatabase) (code : string)
    : list ProductList.t :=
  List.filter
    (fun pl =>
       String.eqb (ProductList.status pl) "approved"
       && String.eqb (ProductList.exhibitionId pl) code)
    (productLists db).

(** The list [pl] after the [status] and [items] fields of an update body
    were applied to it. *)
Definition updated_list (pl : ProductList.t) (body : ProductListRoute.Body)
    : ProductList.t :=
  let pl1 :=
    match ProductListRoute.status body with
    | Some status =>
        if String.eqb status "" then pl
        else ProductList.merge pl (ProductList.only_status status)
    | None => pl
    end in
  match ProductListRoute.items body with
  | Some items =>
      ProductList.merge pl1
        (ProductList.only_totalQuantity (sum_Z (in_quantity <$> items)))
  | None => pl1
  end.

(** The order lines the summary route builds for one list. *)
Definition lines_of (db : MockDatabase) (pl : ProductList.t)
    : list OrdersRoute.OrderLine :=
  map
    (fun item =>
       OrdersRoute.mkLine item
         (details_of
            (MockDB.getProductById db
               (VStr (ProductListItem.productId item))))
         (ProductList.supplierId pl))
    (MockDB.getProductListItemsByProductListId db (ProductList.id pl)).

(** * Properties *)

(** ** Basic facts about the store and the middleware *)

(** A handler that leaves a table alone does so on each of its paths. *)
Ltac by_cases_of_handler := repeat case_match; simplify_eq; done.

Lemma requireRoles_cases db h allowed :
  (exists r, Rbac.requireRoles db h allowed = Rbac.Unauthorized r
             /\ (res_status r = 401 \/ res_status r = 403))
  \/ (exists c, Rbac.requireRoles db h allowed = Rbac.Authorized c
                /\ Rbac.authenticateUser db h = Some c
                /\ Rbac.hasRole (Some c) allowed = true).
Proof.
  unfold Rbac.requireRoles, Rbac.requireAuth.
  destruct (Rbac.authenticateUser db h) as [c|]; simpl.
  - destruct (includes allowed (User.role (Rbac.user c))) eqn:E; simpl.
    + right. exists c. auto.
    + left. eexists. split; [reflexivity|]. simpl. auto.
  - left. eexists. split; [reflexivity|]. simpl. auto.
Qed.

Lemma forEach_product_users db e n x ps :
  users (ExhibitionProductsRoute.forEach_product db e n x ps) = users db.
Proof.
  revert db n. induction ps as [|p ps IH]; intros db n; simpl; [done|].
  by rewrite IH.
Qed.

Lemma forEach_item_users db e n x its :
  users (forEach_item db e n x its) = users db.
Proof.
  revert db n. induction its as [|p ps IH]; intros db n; simpl; [done|].
  by rewrite IH.
Qed.

Lemma handle_users db r : users (snd (handle db r)) = users db.
Proof.
  unfold handle. destruct (operation r); simpl.
  - unfold ProductsRoute.POST. by destruct (Rbac.requireRoles _ _ _).
  - unfold ProductRoute.PUT, MockDB.updateProduct.
    destruct (Rbac.requireRoles _ _ _); [|done].
    destruct (findIndex _ _); [|done]. by destruct (products db !! _).
  - unfold ProductRoute.DELETE, MockDB.deleteProduct.
    destruct (Rbac.requireRoles _ _ _); [|done].
    by destruct (findIndex _ _).
  - unfold ExhibitionsRoute.POST.
    destruct (Rbac.requireRoles _ _ _); [|done]. simpl.
    destruct (ExhibitionsRoute.products body); [|done].
    by rewrite forEach_product_users.
  - unfold ExhibitionProductsRoute.POST.
    destruct (Rbac.requireRoles _ _ _); [|done]. simpl.
    destruct products0; [|done]. by rewrite forEach_product_users.
  - unfold ApproveRoute.POST, MockDB.updateExhibitionProduct.
    destruct (Rbac.requireRoles _ _ _); [|done].
    destruct (ApproveRoute.included _); [|done].
    destruct (findIndex _ _); [|done].
    by destruct (exhibitionProducts db !! _).
  - unfold OrdersRoute.POST.
    destruct (Rbac.requireRoles _ _ _); [|done].
    destruct (truthy _ && truthy _ && isArray _);
      [destruct (OrdersRoute.validate _ _ _)|]; done.
  - unfold ProductListsRoute.POST.
    destruct (Rbac.requireRoles _ _ _); [|done].
    destruct (ProductListsRoute.exhibitionId body); [|done].
    destruct (ProductListsRoute.supplierId body); [|done].
    destruct (ProductListsRoute.items body); [|done].
    destruct (_ || _); [done|]. simpl. by rewrite forEach_item_users.
  - unfold ProductListRoute.PUT.
    destruct (Rbac.requireRoles _ _ _); [|done].
    destruct (MockDB.getProductListById db id); [|done]. simpl.
    set (db1 := match ProductListRoute.status body with
                | Some _ => _ | None => _ end).
    assert (H1 : users db1 = users db).
    { subst db1. unfold MockDB.updateProductList.
      by_cases_of_handler. }
    destruct (ProductListRoute.items body); [|done].
    rewrite forEach_item_users. simpl.
    unfold MockDB.updateProductList.
    destruct (findIndex _ _); [|done].
    by destruct (productLists db1 !! _).
Qed.

Lemma run_users db requests : users (run db requests) = users db.
Proof.
  revert db. induction requests as [|r rs IH]; intros db; [done|].
  unfold run in *. simpl. rewrite IH. apply handle_users.
Qed.

(** The first scenario: the order for a pending product is refused; once the
    row is approved the same order is created, with status DRAFT and the
    items of the request. *)
Example scenario_widget :
  let db := run INITIAL_DATA widget_setup in
  let attempt db := OrdersRoute.POST db env_row None widget_order in
  MockDB.getProductById db (VStr "Widget")
    = Some (Product.mk "Widget" "Widget" "Tools" 10 100 "Pieces" 5
              "2026-01-01" "In-stock" (Some "/placeholder.png")
              (Some "SKU-Widget") None None (Some false))
  /\ attempt db
     = (json (PUnapprovedProduct (Some "Widget") (VStr "Widget")) 400, db)
  /\ exists o,
       fst (attempt (run db [widget_approval])) = json (POrder o) 201
       /\ o !! "status" = Some (VStr "DRAFT")
       /\ o !! "items" = widget_order !! "items".
Proof.
  simpl. split; [reflexivity|]. split; [vm_compute; reflexivity|].
  eexists. split; [vm_compute; reflexivity|]. split; reflexivity.
Qed.

(** The second and third scenarios: a viewer may not delete a product, an
    admin may. *)
Example scenario_delete :
  ProductRoute.DELETE INITIAL_DATA (Some "u4") "456567"
    = (json (PError "Forbidden - Insufficient permissions") 403, INITIAL_DATA)
  /\ fst (ProductRoute.DELETE INITIAL_DATA (Some "u1") "456567")
     = json (PMessage "Product deleted") 200
  /\ MockDB.getProductById
       (snd (ProductRoute.DELETE INITIAL_DATA (Some "u1") "456567"))
       (VStr "456567") = None.
Proof. repeat split. Qed.

(** ** C3: the permission matrix *)

Lemma includes_cons x a l :
  includes (a :: l) x = String.eqb x a || includes l x.
Proof. reflexivity. Qed.

(** C3, as the claim states it, fails on the code.  The claim tabulates the
    roles ADMIN, MANAGER, OPERATOR and VIEWER and wants every other role
    denied.  The code knows no role OPERATOR: an actor with that role is
    denied the creation of a product, which the table grants; and the seeded
    actor [u3], whose role USER is outside the claim's enumeration, is
    granted it. *)
Lemma C3_counterexample :
  evaluate (User.mk "u9" "operator" "OPERATOR" "An Operator")
    Rbac.PRODUCT_CREATE
  <> spec_evaluate "OPERATOR" Rbac.PRODUCT_CREATE
  /\ evaluate u3 Rbac.PRODUCT_CREATE
     <> spec_evaluate (User.role u3) Rbac.PRODUCT_CREATE.
Proof. split; vm_compute; discriminate. Qed.

(** C3 (amended): with the third column of the table of section 4.1 read as
    the role USER of the code, the evaluator returns the tabulated boolean
    for each of the four roles and each of the twelve capabilities (48
    combinations), and denies every capability to a role outside ADMIN,
    MANAGER, USER, VIEWER and to a missing actor.  The evaluator is a total
    function to [bool] on the fixed enumeration of capabilities: it has no
    failing case and no access to the store. *)
Theorem C3_permission_matrix :
  (forall (u : User.t) (p : Rbac.Permission),
     evaluate u p = tabulated "USER" (User.role u) p)
  /\ (forall p : Rbac.Permission,
        evaluate u1 p = table_4_1 p colADMIN
        /\ evaluate u2 p = table_4_1 p colMANAGER
        /\ evaluate u3 p = table_4_1 p colTHIRD
        /\ evaluate u4 p = table_4_1 p colVIEWER)
  /\ (forall (u : User.t) (p : Rbac.Permission),
        column_of "USER" (User.role u) = None -> evaluate u p = false)
  /\ (forall p : Rbac.Permission,
        Rbac.checkPermission None (Rbac.PERMISSIONS p) = false).
Proof.
  assert (H : forall (u : User.t) (p : Rbac.Permission),
             evaluate u p = tabulated "USER" (User.role u) p).
  { intros [i n r f] p.
    unfold evaluate, Rbac.checkPermission, Rbac.hasRole, tabulated, column_of.
    simpl User.role.
    destruct p; simpl Rbac.PERMISSIONS; rewrite ?includes_cons;
      change (includes [] r) with false;
      destruct (String.eqb r "ADMIN"), (String.eqb r "MANAGER"),
        (String.eqb r "USER"), (String.eqb r "VIEWER"); reflexivity. }
  split; [exact H|]. split; [|split].
  - intros p. by destruct p.
  - intros u p Hc. rewrite H. unfold tabulated. by rewrite Hc.
  - reflexivity.
Qed.

Lemma C3_permission_matrix_witness :
  column_of "USER" (User.role (User.mk "u9" "operator" "OPERATOR" "Op")) = None
  /\ evaluate (User.mk "u9" "operator" "OPERATOR" "Op") Rbac.ORDER_READ = false.
Proof.
  split; [reflexivity|].
  apply (proj1 (proj2 (proj2 C3_permission_matrix))). reflexivity.
Defined.

(** ** C10: the actor of a request without identity header *)

Lemma getUserById_seed db v :
  users db = users INITIAL_DATA ->
  MockDB.getUserById db v =
    if String.eqb "u1" v then Some u1
    else if String.eqb "u2" v then Some u2
    else if String.eqb "u3" v then Some u3
    else if String.eqb "u4" v then Some u4
    else None.
Proof. intros H. unfold MockDB.getUserById. rewrite H. reflexivity. Qed.

(** C10: in every store reachable from the seed data, a request without
    [x-user-id] header is authenticated as the seeded user [u3], whose role
    is USER; [requireAuth] answers 401 exactly when the header is present,
    not empty, and equal to the id of no seeded user; and a request without
    header passes [requireRoles] for a capability exactly when the role USER
    is allowed it. *)
Theorem C10_default_actor (requests : list Request) :
  let db := run INITIAL_DATA requests in
  Rbac.authenticateUser db None = Some (Rbac.mkContext u3)
  /\ User.role u3 = "USER"
  /\ u3 ∈ users INITIAL_DATA
  /\ (forall h : Headers,
        Rbac.requireAuth db h
          = Rbac.Unauthorized (json (PError "Unauthorized") 401)
        <-> exists v, h = Some v /\ v <> ""
                      /\ forall u, u ∈ users INITIAL_DATA -> User.id u <> v)
  /\ (forall (h : Headers) (c : Rbac.AuthContext),
        Rbac.requireAuth db h = Rbac.Authorized c ->
        Rbac.user c ∈ users INITIAL_DATA)
  /\ (forall p : Rbac.Permission,
        Rbac.requireRoles db None (Rbac.PERMISSIONS p)
          = if includes (Rbac.PERMISSIONS p) "USER"
            then Rbac.Authorized (Rbac.mkContext u3)
            else Rbac.Unauthorized
                   (json (PError "Forbidden - Insufficient permissions") 403)).
Proof.
  intros db.
  assert (Hu : users db = users INITIAL_DATA) by apply run_users.
  assert (Hget := fun v => getUserById_seed db v Hu).
  assert (Hin : forall u, u ∈ users INITIAL_DATA <->
                          u = u1 \/ u = u2 \/ u = u3 \/ u = u4).
  { intros u. simpl. rewrite !elem_of_cons, elem_of_nil. unfold u1, u2, u3, u4.
    tauto. }
  assert (Hnone : Rbac.authenticateUser db None = Some (Rbac.mkContext u3)).
  { unfold Rbac.authenticateUser. by rewrite Hget. }
  split; [exact Hnone|]. split; [reflexivity|].
  split; [apply Hin; tauto|]. split; [|split].
  - intros h. unfold Rbac.requireAuth, Rbac.authenticateUser. split.
    + destruct h as [v|]; [|by rewrite Hget].
      destruct (String.eqb v "") eqn:Ev; [by rewrite Hget|].
      rewrite Hget. intros Hres. exists v. split; [done|].
      split; [by apply String.eqb_neq|].
      intros u Hu4 <-. apply Hin in Hu4.
      destruct Hu4 as [ -> | [ -> | [ -> | -> ] ] ]; simpl in Hres; discriminate.
    + intros (v & -> & Hv & Hno). apply String.eqb_neq in Hv. rewrite Hv, Hget.
      destruct (String.eqb "u1" v) eqn:E1;
        [apply String.eqb_eq in E1; exfalso; apply (Hno u1); [apply Hin; tauto|done]|].
      destruct (String.eqb "u2" v) eqn:E2;
        [apply String.eqb_eq in E2; exfalso; apply (Hno u2); [apply Hin; tauto|done]|].
      destruct (String.eqb "u3" v) eqn:E3;
        [apply String.eqb_eq in E3; exfalso; apply (Hno u3); [apply Hin; tauto|done]|].
      destruct (String.eqb "u4" v) eqn:E4;
        [apply String.eqb_eq in E4; exfalso; apply (Hno u4); [apply Hin; tauto|done]|].
      reflexivity.
  - intros h c. unfold Rbac.requireAuth, Rbac.authenticateUser.
    set (uid := match h with Some v => _ | None => _ end).
    rewrite Hget. intros Hc. apply Hin.
    destruct (String.eqb "u1" uid); [simplify_eq; simpl; tauto|].
    destruct (String.eqb "u2" uid); [simplify_eq; simpl; tauto|].
    destruct (String.eqb "u3" uid); [simplify_eq; simpl; tauto|].
    destruct (String.eqb "u4" uid); [simplify_eq; simpl; tauto|].
    discriminate.
  - intros p. unfold Rbac.requireRoles, Rbac.requireAuth. rewrite Hnone.
    unfold Rbac.hasRole. simpl Rbac.user. simpl User.role.
    by destruct (includes _ _).
Qed.

Lemma C10_default_actor_witness :
  Rbac.requireAuth (run INITIAL_DATA []) (Some "u4")
    = Rbac.Authorized (Rbac.mkContext u4)
  /\ Rbac.user (Rbac.mkContext u4) ∈ users INITIAL_DATA.
Proof.
  split; [reflexivity|].
  apply (proj1 (proj2 (proj2 (proj2 (proj2 (C10_default_actor []))))) (Some "u4")).
  reflexivity.
Defined.

(** ** The approval gate of [POST /api/orders] (C1, C2, C4, C9) *)

Lemma find_first {A : Type} (f : A -> bool) (l : list A) (x : A) :
  List.find f l = Some x <->
  exists i, l !! i = Some x /\ f x = true
            /\ forall j y, j < i -> l !! j = Some y -> f y = false.
Proof.
  induction l as [|a l IH]; simpl.
  - split; [discriminate|]. intros (i & Hi & _). by destruct i.
  - destruct (f a) eqn:Fa.
    + split.
      * intros [= ->]. exists 0. repeat split; [done|]. intros j y Hj. lia.
      * intros (i & Hi & Hx & Hmin). destruct i as [|i]; [by simplify_eq|].
        specialize (Hmin 0 a ltac:(lia) eq_refl). congruence.
    + rewrite IH. split.
      * intros (i & Hi & Hx & Hmin). exists (S i). repeat split; [done..|].
        intros [|j] y Hj Hy; simpl in Hy; [by simplify_eq|].
        apply (Hmin j); [lia|done].
      * intros (i & Hi & Hx & Hmin). destruct i as [|i];
          [simpl in Hi; simplify_eq; congruence|].
        exists i. repeat split; [done..|]. intros j y Hj Hy.
        apply (Hmin (S j)); [lia|done].
Qed.

Lemma strict_eq_str_true s v : strict_eq_str s v = true <-> v = VStr s.
Proof.
  destruct v; simpl; try (split; [discriminate|intros [=]]).
  rewrite String.eqb_eq. split; [by intros ->|by intros [= ->]].
Qed.

Lemma Status_eqb_eq a b : ExhibitionProduct.Status_eqb a b = true <-> a = b.
Proof. destruct a, b; simpl; split; (done || discriminate). Qed.

(** *** The validation loop for a store [db] and an exhibition code [E] *)

Section Gate.

Context (db : MockDatabase) (E : string).

(** The lookup of the store answers true exactly when the earliest row of
    the pair is approved. *)
Lemma item_passes_first_row item :
  item_passes db E item = true <-> first_row_approved db E item.
Proof.
  unfold item_passes, first_row_approved,
    MockDB.isProductApprovedForExhibition.
  destruct (get_prop item "productId") as [pid|] eqn:Hp.
  - destruct (List.find _ _) as [ep|] eqn:Hf.
    + apply find_first in Hf as (i & Hi & Hm & Hmin).
      apply andb_true_iff in Hm as [HE HP].
      apply strict_eq_str_true in HE. apply strict_eq_str_true in HP.
      injection HE as HE. subst pid. rewrite Status_eqb_eq. split.
      * intros Hs. exists i, ep. repeat split; [done..|].
        intros j ep' Hj Hj' [HE' HP'].
        specialize (Hmin j ep' Hj Hj'). simpl in Hmin.
        rewrite HE', HP', !String.eqb_refl in Hmin. discriminate.
      * intros (i' & ep' & Hi' & HE' & HP' & Hs & Hmin').
        injection HP' as HP'.
        destruct (Nat.lt_trichotomy i i') as [Hlt|[->|Hgt]].
        -- exfalso. apply (Hmin' i ep Hlt Hi). by rewrite HP'.
        -- by simplify_eq.
        -- specialize (Hmin i' ep' Hgt Hi'). simpl in Hmin.
           rewrite HE', HE, HP', !String.eqb_refl in Hmin. discriminate.
    + split; [discriminate|].
      intros (i & ep & Hi & HE & HP & Hs & _). injection HP as ->.
      pose proof (find_none _ _ Hf ep) as Hn. simpl in Hn.
      rewrite HE, !String.eqb_refl in Hn.
      discriminate Hn. apply list_elem_of_In, list_elem_of_lookup. eauto.
  - split; [discriminate|]. by intros (i & ep & _ & _ & [=] & _).
Qed.





Lemma validate_AllApproved items :
  OrdersRoute.validate db (VStr E) items = OrdersRoute.AllApproved <->
  Forall (fun item => item_passes db E item = true) items.
Proof.
  induction items as [|item items IH]; simpl.
  - split; [constructor|done].
  - rewrite Forall_cons, <- IH. unfold item_passes.
    destruct (get_prop item "productId"); [|split; [done|by intros [? _]]].
    destruct (MockDB.isProductApprovedForExhibition _ _ _); simpl;
      [tauto|split; [done|by intros [? _]]].
Qed.


End Gate.

(** The handler, once the caller is authorised and the guard of the loop
    holds. *)
Lemma POST_orders_guarded db env h c body E items :
  Rbac.requireRoles db h (Rbac.PERMISSIONS Rbac.ORDER_CREATE)
    = Rbac.Authorized c ->
  body !! "exhibitionId" = Some (VStr E) -> E <> "" ->
  body !! "items" = Some (VArr items) ->
  OrdersRoute.POST db env h body =
    match OrdersRoute.validate db (VStr E) items with
    | OrdersRoute.Thrown => (json (PError "Failed to create order") 500, db)
    | OrdersRoute.NotApproved product productId =>
        (json (PUnapprovedProduct (Product.name <$> product) productId) 400, db)
    | OrdersRoute.AllApproved =>
        (json (POrder (OrdersRoute.newOrder env (VStr E) body)) 201,
         with_orders db (orders db ++ [OrdersRoute.newOrder env (VStr E) body]))
    end.
Proof.
  intros Hauth HE Hne Hitems. unfold OrdersRoute.POST, destructure.
  rewrite Hauth, HE, Hitems. simpl.
  apply String.eqb_neq in Hne. by rewrite Hne.
Qed.




(** The handler when the guard holds and some item does not pass. *)
Lemma POST_orders_rejected db env h c body E items :
  Rbac.requireRoles db h (Rbac.PERMISSIONS Rbac.ORDER_CREATE)
    = Rbac.Authorized c ->
  body !! "exhibitionId" = Some (VStr E) -> E <> "" ->
  body !! "items" = Some (VArr items) ->
  ~ Forall (fun item => item_passes db E item = true) items ->
  snd (OrdersRoute.POST db env h body) = db
  /\ ((exists n p, fst (OrdersRoute.POST db env h body)
                   = json (PUnapprovedProduct n p) 400)
      \/ fst (OrdersRoute.POST db env h body)
         = json (PError "Failed to create order") 500).
Proof.
  intros Hauth HE Hne Hitems Hnot.
  rewrite (POST_orders_guarded db env h c body E items) by done.
  rewrite <- validate_AllApproved in Hnot.
  destruct (OrdersRoute.validate db (VStr E) items); simpl; [done|eauto..].
Qed.

(** C2, as the claim states it, fails on the code: a request of two items
    whose [exhibitionId] is the empty string skips the validation loop, and
    although no item has a row for that exhibition, let alone an approved
    one, an order is appended to the orders table. *)
Lemma C2_counterexample :
  let items := [VObj {[ "productId" := VStr "456567" ]};
                VObj {[ "productId" := VStr "456570" ]}] in
  let body : jsobj := {[ "exhibitionId" := VStr ""; "items" := VArr items ]} in
  let res := OrdersRoute.POST INITIAL_DATA env0 (Some "u3") body in
  length items = 2
  /\ (exists item, items !! 1 = Some item
                   /\ ~ has_approved_row INITIAL_DATA "" item)
  /\ res_status (fst res) = 201
  /\ orders (snd res)
     = (orders INITIAL_DATA ++ [OrdersRoute.newOrder env0 (VStr "") body])%list.
Proof.
  simpl. split; [reflexivity|]. split; [|split; vm_compute; reflexivity].
  eexists. split; [reflexivity|].
  intros (ep & Hin & HE & _). vm_compute in Hin.
  repeat (apply elem_of_cons in Hin as [->|Hin]; [discriminate HE|]).
  by apply elem_of_nil in Hin.
Qed.

(** C2 (amended): when the [exhibitionId] of a request is a non-empty string
    [E] and some item of its [items] array is not approved for [E], whatever
    the position of the item and whatever the items before it, the call does
    not succeed and the store after the call is the store before it: the
    orders table is unchanged.  This holds for every caller. *)
Theorem C2_all_or_nothing (db : MockDatabase) (env : Env) (h : Headers)
    (body : jsobj) (E : string) (items : list jsval) (k : nat) (item : jsval) :
  body !! "exhibitionId" = Some (VStr E) -> E <> "" ->
  body !! "items" = Some (VArr items) ->
  items !! k = Some item ->
  ~ first_row_approved db E item ->
  let res := OrdersRoute.POST db env h body in
  snd res = db
  /\ orders (snd res) = orders db
  /\ res_status (fst res) <> 201
  /\ forall o, res_body (fst res) <> POrder o.
Proof.
  intros HE Hne Hitems Hk Hbad res.
  assert (Hnot : ~ Forall (fun item => item_passes db E item = true) items).
  { intros Hall. apply Hbad, item_passes_first_row.
    rewrite Forall_lookup in Hall. by apply (Hall k). }
  destruct (requireRoles_cases db h (Rbac.PERMISSIONS Rbac.ORDER_CREATE))
    as [(r & Hr & Hst)|(c & Hc & _)].
  - subst res. unfold OrdersRoute.POST. rewrite Hr. simpl.
    repeat split; [|].
    + destruct Hst as [-> | ->]; discriminate.
    + intros o Ho. unfold Rbac.requireRoles, Rbac.requireAuth in Hr.
      destruct (Rbac.authenticateUser db h); [|by simplify_eq].
      destruct (negb _); by simplify_eq.
  - destruct (POST_orders_rejected db env h c body E items Hc HE Hne Hitems Hnot)
      as (Hdb & Hcases).
    fold res in Hdb, Hcases. rewrite Hdb. repeat split.
    + destruct Hcases as [(n & p & ->)| ->]; discriminate.
    + intros o. destruct Hcases as [(n & p & ->)| ->]; discriminate.
Qed.

Lemma C2_all_or_nothing_witness :
  let body : jsobj :=
    {[ "exhibitionId" := VStr "EX-2941";
       "items" := VArr [VObj {[ "productId" := VStr "456567" ]};
                        VObj {[ "productId" := VStr "456570" ]}] ]} in
  orders (snd (OrdersRoute.POST INITIAL_DATA env0 (Some "u1") body))
  = orders INITIAL_DATA.
Proof.
  refine (proj1 (proj2
    (C2_all_or_nothing INITIAL_DATA env0 (Some "u1") _ "EX-2941"
       [VObj {[ "productId" := VStr "456567" ]};
        VObj {[ "productId" := VStr "456570" ]}]
       1 (VObj {[ "productId" := VStr "456570" ]}) _ _ _ _ _))).
  - reflexivity.
  - discriminate.
  - reflexivity.
  - reflexivity.
  - rewrite <- item_passes_first_row. vm_compute. discriminate.
Defined.

(** C4: for an authorised caller, when the body has no [items] field, or an
    [items] field that is not an array, or no [exhibitionId], or a falsy one,
    the handler runs no approval check: whatever the table of exhibition
    products holds, the order built from the body is appended to the orders
    table and returned with status 201. *)
Theorem C4_gate_bypass (db : MockDatabase) (env : Env) (h : Headers)
    (c : Rbac.AuthContext) (body : jsobj) :
  Rbac.requireRoles db h (Rbac.PERMISSIONS Rbac.ORDER_CREATE)
    = Rbac.Authorized c ->
  body !! "items" = None
  \/ (exists v, body !! "items" = Some v /\ isArray v = false)
  \/ body !! "exhibitionId" = None
  \/ (exists v, body !! "exhibitionId" = Some v /\ truthy v = false) ->
  let o := OrdersRoute.newOrder env (destructure body "exhibitionId") body in
  OrdersRoute.POST db env h body
  = (json (POrder o) 201, with_orders db (orders db ++ [o])).
Proof.
  intros Hauth Hshape o. unfold OrdersRoute.POST. rewrite Hauth.
  assert (Hguard : truthy (destructure body "exhibitionId")
                   && truthy (destructure body "items")
                   && isArray (destructure body "items") = false).
  { unfold destructure.
    destruct Hshape as [-> | [(v & -> & Hv) | [-> | (v & -> & Hv)]]]; simpl.
    - by rewrite andb_false_r.
    - by rewrite Hv, andb_false_r.
    - done.
    - by rewrite Hv. }
  by rewrite Hguard.
Qed.

Lemma C4_gate_bypass_witness :
  let body : jsobj :=
    {[ "exhibitionId" := VStr "EX-2941";
       "items" := VObj {[ "productId" := VStr "456570" ]} ]} in
  OrdersRoute.POST INITIAL_DATA env0 None body
  = (json (POrder (OrdersRoute.newOrder env0 (VStr "EX-2941") body)) 201,
     with_orders INITIAL_DATA
       (orders INITIAL_DATA ++ [OrdersRoute.newOrder env0 (VStr "EX-2941") body])).
Proof.
  refine (C4_gate_bypass INITIAL_DATA env0 None (Rbac.mkContext u3) _ _ _).
  - reflexivity.
  - right. left. eexists. split; reflexivity.
Defined.

(** A created order is the body laid over the four fields the handler
    writes. *)
Lemma POST_orders_created db env h body o db' :
  OrdersRoute.POST db env h body = (json (POrder o) 201, db') ->
  o = OrdersRoute.newOrder env (destructure body "exhibitionId") body
  /\ db' = with_orders db (orders db ++ [o]).
Proof.
  unfold OrdersRoute.POST. intros H.
  destruct (Rbac.requireRoles _ _ _) as [ctx|r] eqn:Hr.
  - destruct (truthy _ && truthy _ && isArray _);
      [destruct (OrdersRoute.validate _ _ _)|]; simpl in H; by simplify_eq.
  - exfalso. unfold Rbac.requireRoles, Rbac.requireAuth in Hr.
    destruct (Rbac.authenticateUser db h); [|by simplify_eq].
    destruct (negb _); by simplify_eq.
Qed.



(** ** The status of an exhibition product (C5, C6, C8) *)

Lemma findIndex_Some {A : Type} (f : A -> bool) (l : list A) (i : nat) :
  findIndex f l = Some i <->
  exists x, l !! i = Some x /\ f x = true
            /\ forall j y, j < i -> l !! j = Some y -> f y = false.
Proof.
  revert i. induction l as [|a l IH]; intros i; simpl.
  - split; [discriminate|]. by intros (x & Hx & _).
  - destruct (f a) eqn:Fa.
    + split.
      * intros [= <-]. exists a. repeat split; [done|]. intros j y Hj. lia.
      * intros (x & Hi & Hx & Hmin). destruct i as [|i]; [done|].
        specialize (Hmin 0 a ltac:(lia) eq_refl). congruence.
    + rewrite fmap_Some. split.
      * intros (i' & Hf & ->). apply IH in Hf as (x & Hi & Hx & Hmin).
        exists x. repeat split; [done..|].
        intros [|j] y Hj Hy; simpl in Hy; [by simplify_eq|].
        apply (Hmin j); [lia|done].
      * intros (x & Hi & Hx & Hmin). destruct i as [|i];
          [simpl in Hi; simplify_eq; congruence|].
        exists i. split; [|done]. apply IH.
        exists x. repeat split; [done..|]. intros j y Hj Hy.
        apply (Hmin (S j)); [lia|done].
Qed.

Lemma findIndex_None {A : Type} (f : A -> bool) (l : list A) :
  findIndex f l = None <-> forall x, x ∈ l -> f x = false.
Proof.
  induction l as [|a l IH]; simpl.
  - split; [|done]. intros _ x Hx. by apply elem_of_nil in Hx.
  - destruct (f a) eqn:Fa.
    + split; [discriminate|]. intros H. specialize (H a). rewrite Fa in H.
      discriminate H. by left.
    + rewrite fmap_None, IH. split.
      * intros H x Hx. apply elem_of_cons in Hx as [->|Hx]; [done|].
        by apply H.
      * intros H x Hx. apply H. by right.
Qed.

Lemma included_Some status st :
  ApproveRoute.included status = Some st <->
  (status = VStr "approved" /\ st = ExhibitionProduct.approved)
  \/ (status = VStr "rejected" /\ st = ExhibitionProduct.rejected).
Proof.
  unfold ApproveRoute.included. destruct status; try (split; [done|]);
    try by intros [[[=] _]|[[=] _]].
  destruct (String.eqb s "approved") eqn:Ea.
  - apply String.eqb_eq in Ea as ->. split.
    + intros [= <-]. by left.
    + by intros [[_ ->]|[[=] _]].
  - destruct (String.eqb s "rejected") eqn:Er.
    + apply String.eqb_eq in Er as ->. split.
      * intros [= <-]. by right.
      * by intros [[[=] _]|[_ ->]].
    + split; [done|]. apply String.eqb_neq in Ea, Er.
      intros [[[= ->] _]|[[= ->] _]]; done.
Qed.

Lemma included_None status :
  ApproveRoute.included status = None <->
  status <> VStr "approved" /\ status <> VStr "rejected".
Proof.
  destruct (ApproveRoute.included status) as [st|] eqn:Hi.
  - apply included_Some in Hi. split; [done|]. intros [H1 H2].
    by destruct Hi as [[? _]|[? _]].
  - split; [|done]. intros _.
    split; intros ->; vm_compute in Hi; discriminate.
Qed.

(** The row [ep] with its status set to [st], field by field. *)
Lemma merge_only_status ep st :
  ExhibitionProduct.merge ep (ExhibitionProduct.only_status st)
  = ExhibitionProduct.mk (ExhibitionProduct.id ep)
      (ExhibitionProduct.exhibitionId ep) (ExhibitionProduct.productId ep)
      (ExhibitionProduct.quantity ep) (ExhibitionProduct.price ep) st
      (ExhibitionProduct.supplierId ep) (ExhibitionProduct.complianceNotes ep).
Proof. by destruct ep. Qed.

(** C5: for an authorised caller of the approval route, (1) a [status] other
    than the strings approved and rejected is answered 400 "Invalid status"
    and the store is unchanged, whether or not the id names a row; (2) with
    a valid status and an id that no row carries, the answer is 404 "Product
    not found" and the store is unchanged; (3) with a valid status and an id
    some row carries, the earliest such row is replaced, at its position, by
    the same row with the new status, every other row and table is
    unchanged, and the updated row is returned with status 200. *)
Theorem C5_set_status (db : MockDatabase) (h : Headers)
    (c : Rbac.AuthContext) (body : jsobj) :
  Rbac.requireRoles db h (Rbac.PERMISSIONS Rbac.APPROVAL_APPROVE)
    = Rbac.Authorized c ->
  let id := destructure body "id" in
  let status := destructure body "status" in
  let res := ApproveRoute.POST db h body in
  (status <> VStr "approved" -> status <> VStr "rejected" ->
   res = (json (PError "Invalid status") 400, db))
  /\ (forall st,
        (status = VStr "approved" /\ st = ExhibitionProduct.approved)
        \/ (status = VStr "rejected" /\ st = ExhibitionProduct.rejected) ->
        ((forall ep, ep ∈ exhibitionProducts db ->
                     VStr (ExhibitionProduct.id ep) <> id) ->
         res = (json (PError "Product not found") 404, db))
        /\ (forall i ep,
              exhibitionProducts db !! i = Some ep ->
              VStr (ExhibitionProduct.id ep) = id ->
              (forall j ep', j < i -> exhibitionProducts db !! j = Some ep' ->
                             VStr (ExhibitionProduct.id ep') <> id) ->
              let updated :=
                ExhibitionProduct.mk (ExhibitionProduct.id ep)
                  (ExhibitionProduct.exhibitionId ep)
                  (ExhibitionProduct.productId ep)
                  (ExhibitionProduct.quantity ep)
                  (ExhibitionProduct.price ep) st
                  (ExhibitionProduct.supplierId ep)
                  (ExhibitionProduct.complianceNotes ep) in
              res = (json (PExhibitionProduct updated) 200,
                     with_exhibitionProducts db
                       (<[i := updated]> (exhibitionProducts db))))).
Proof.
  intros Hauth id status res. subst res. unfold ApproveRoute.POST.
  rewrite Hauth. fold id status. split.
  - intros Ha Hr. by rewrite (proj2 (included_None status)).
  - intros st Hst. apply included_Some in Hst. rewrite Hst.
    unfold MockDB.updateExhibitionProduct. split.
    + intros Hno.
      rewrite (proj2 (findIndex_None _ (exhibitionProducts db))); [done|].
      intros ep Hep. specialize (Hno ep Hep).
      destruct (strict_eq_str _ id) eqn:Hs; [|done].
      apply strict_eq_str_true in Hs. congruence.
    + intros i ep Hi Hid Hmin.
      rewrite (proj2 (findIndex_Some _ (exhibitionProducts db) i)).
      * rewrite Hi, merge_only_status. reflexivity.
      * exists ep. split; [done|]. split; [by apply strict_eq_str_true|].
        intros j y Hj Hy. specialize (Hmin j y Hj Hy).
        destruct (strict_eq_str _ id) eqn:Hs; [|done].
        apply strict_eq_str_true in Hs. congruence.
Qed.

Lemma C5_set_status_witness :
  ApproveRoute.POST INITIAL_DATA (Some "u2")
    {[ "id" := VStr "cszttszpu"; "status" := VStr "pending" ]}
  = (json (PError "Invalid status") 400, INITIAL_DATA).
Proof.
  refine (proj1
    (C5_set_status INITIAL_DATA (Some "u2") (Rbac.mkContext u2)
       {[ "id" := VStr "cszttszpu"; "status" := VStr "pending" ]} _) _ _).
  - reflexivity.
  - discriminate.
  - discriminate.
Defined.

(** The rows [forEach_product] appends: one per product, in order. *)
Lemma forEach_product_exhibitionProducts db e n x ps :
  exhibitionProducts (ExhibitionProductsRoute.forEach_product db e n x ps)
  = (exhibitionProducts db
     ++ imap (fun k p =>
                ExhibitionProductsRoute.newExhibitionProduct
                  (random e (n + k)) x p) ps)%list.
Proof.
  revert db n. induction ps as [|p ps IH]; intros db n; simpl.
  - by rewrite app_nil_r.
  - rewrite IH. simpl. rewrite <- app_assoc. simpl.
    rewrite Nat.add_0_r. do 2 f_equal. apply imap_ext.
    intros k q _. simpl. by rewrite Nat.add_succ_r.
Qed.

Lemma imap_rows_pending e n x ps :
  Forall (fun ep => ExhibitionProduct.status ep = ExhibitionProduct.pending)
    (imap (fun k p =>
             ExhibitionProductsRoute.newExhibitionProduct
               (random e (n + k)) x p) ps).
Proof.
  apply Forall_lookup. intros k ep Hk.
  rewrite list_lookup_imap in Hk.
  destruct (ps !! k); simpl in Hk; by simplify_eq.
Qed.

Lemma imap_rows_productId e n x ps :
  ExhibitionProduct.productId
    <$> imap (fun k p =>
                ExhibitionProductsRoute.newExhibitionProduct
                  (random e (n + k)) x p) ps
  = in_productId <$> ps.
Proof.
  apply list_eq. intros k.
  rewrite !list_lookup_fmap, list_lookup_imap. by destruct (ps !! k).
Qed.

Lemma forEach_item_exhibitionProducts db e n x its :
  exhibitionProducts (forEach_item db e n x its) = exhibitionProducts db.
Proof.
  revert db n. induction its as [|p ps IH]; intros db n; simpl; [done|].
  by rewrite IH.
Qed.

(** The approval route on a valid status and an id some row carries. *)
Lemma POST_approve_found db h c body st i ep :
  Rbac.requireRoles db h (Rbac.PERMISSIONS Rbac.APPROVAL_APPROVE)
    = Rbac.Authorized c ->
  ApproveRoute.included (destructure body "status") = Some st ->
  exhibitionProducts db !! i = Some ep ->
  VStr (ExhibitionProduct.id ep) = destructure body "id" ->
  (forall j ep', j < i -> exhibitionProducts db !! j = Some ep' ->
                 VStr (ExhibitionProduct.id ep') <> destructure body "id") ->
  ApproveRoute.POST db h body
  = (json (PExhibitionProduct
             (ExhibitionProduct.merge ep (ExhibitionProduct.only_status st)))
       200,
     with_exhibitionProducts db
       (<[i := ExhibitionProduct.merge ep (ExhibitionProduct.only_status st)]>
          (exhibitionProducts db))).
Proof.
  intros Hauth Hst Hi Hid Hmin. unfold ApproveRoute.POST.
  rewrite Hauth, Hst. unfold MockDB.updateExhibitionProduct.
  rewrite (proj2 (findIndex_Some _ (exhibitionProducts db) i)).
  - by rewrite Hi.
  - exists ep. split; [done|]. split; [by apply strict_eq_str_true|].
    intros j y Hj Hy. specialize (Hmin j y Hj Hy).
    destruct (strict_eq_str _ _) eqn:Hs; [|done].
    apply strict_eq_str_true in Hs. congruence.
Qed.

(** What a request does to the table of exhibition products: it appends
    pending rows (possibly none), or it is an approval that replaces one row
    by the same row with status approved or rejected. *)
Lemma handle_exhibitionProducts db r :
  (exists news,
     exhibitionProducts (snd (handle db r))
     = (exhibitionProducts db ++ news)%list
     /\ Forall (fun ep =>
                  ExhibitionProduct.status ep = ExhibitionProduct.pending)
          news)
  \/ (exists body i ep st,
        operation r = SetApproval body
        /\ exhibitionProducts db !! i = Some ep
        /\ ApproveRoute.included (destructure body "status") = Some st
        /\ exhibitionProducts (snd (handle db r))
           = <[i := ExhibitionProduct.merge ep
                       (ExhibitionProduct.only_status st)]>
               (exhibitionProducts db)).
Proof.
  assert (Hsame : forall db', exhibitionProducts db' = exhibitionProducts db ->
            exists news,
              exhibitionProducts db'
              = (exhibitionProducts db ++ news)%list
              /\ Forall (fun ep =>
                   ExhibitionProduct.status ep = ExhibitionProduct.pending)
                   news).
  { intros db' ->. exists []. by rewrite app_nil_r. }
  unfold handle. destruct (operation r) eqn:Hop; simpl.
  - left. apply Hsame. unfold ProductsRoute.POST.
    by destruct (Rbac.requireRoles _ _ _).
  - left. apply Hsame. unfold ProductRoute.PUT, MockDB.updateProduct.
    by_cases_of_handler.
  - left. apply Hsame. unfold ProductRoute.DELETE, MockDB.deleteProduct.
    by_cases_of_handler.
  - left. unfold ExhibitionsRoute.POST.
    destruct (Rbac.requireRoles _ _ _); [|by apply Hsame]. simpl.
    destruct (ExhibitionsRoute.products body); [|by apply Hsame].
    rewrite forEach_product_exhibitionProducts.
    eexists. split; [reflexivity|]. apply imap_rows_pending.
  - left. unfold ExhibitionProductsRoute.POST.
    destruct (Rbac.requireRoles _ _ _); [|by apply Hsame]. simpl.
    destruct products0; [|by apply Hsame].
    rewrite forEach_product_exhibitionProducts.
    eexists. split; [done|]. apply imap_rows_pending.
  - unfold ApproveRoute.POST, MockDB.updateExhibitionProduct.
    destruct (Rbac.requireRoles _ _ _); [|left; by apply Hsame].
    destruct (ApproveRoute.included _) as [st|] eqn:Hst;
      [|left; by apply Hsame].
    destruct (findIndex _ _) as [i|]; [|left; by apply Hsame].
    destruct (exhibitionProducts db !! i) as [ep|] eqn:Hi;
      [|left; by apply Hsame].
    right. exists body, i, ep, st. done.
  - left. apply Hsame. unfold OrdersRoute.POST.
    destruct (Rbac.requireRoles _ _ _); [|done].
    destruct (truthy _ && truthy _ && isArray _);
      [destruct (OrdersRoute.validate _ _ _)|]; done.
  - left. apply Hsame. unfold ProductListsRoute.POST.
    destruct (Rbac.requireRoles _ _ _); [|done].
    destruct (ProductListsRoute.exhibitionId body); [|done].
    destruct (ProductListsRoute.supplierId body); [|done].
    destruct (ProductListsRoute.items body); [|done].
    destruct (_ || _); [done|]. simpl.
    by rewrite forEach_item_exhibitionProducts.
  - left. apply Hsame. unfold ProductListRoute.PUT.
    destruct (Rbac.requireRoles _ _ _); [|done].
    destruct (MockDB.getProductListById db id); [|done]. simpl.
    set (db1 := match ProductListRoute.status body with
                | Some _ => _ | None => _ end).
    assert (H1 : exhibitionProducts db1 = exhibitionProducts db).
    { subst db1. unfold MockDB.updateProductList.
      by_cases_of_handler. }
    destruct (ProductListRoute.items body); [|done].
    rewrite forEach_item_exhibitionProducts. simpl.
    unfold MockDB.updateProductList.
    by_cases_of_handler.
Qed.

(** One request keeps a settled row settled, at its position and under its
    id. *)
Lemma handle_settled db r i ep :
  exhibitionProducts db !! i = Some ep ->
  ExhibitionProduct.status ep <> ExhibitionProduct.pending ->
  exists ep',
    exhibitionProducts (snd (handle db r)) !! i = Some ep'
    /\ ExhibitionProduct.id ep' = ExhibitionProduct.id ep
    /\ ExhibitionProduct.status ep' <> ExhibitionProduct.pending.
Proof.
  intros Hi Hs.
  destruct (handle_exhibitionProducts db r)
    as [(news & -> & _)|(body & i0 & ep0 & st & _ & Hi0 & Hst & ->)].
  - exists ep. split; [|done]. by apply lookup_app_l_Some.
  - destruct (decide (i0 = i)) as [->|Hne].
    + exists (ExhibitionProduct.merge ep0 (ExhibitionProduct.only_status st)).
      split; [apply list_lookup_insert_eq; by eapply lookup_lt_Some|].
      simplify_eq. rewrite merge_only_status. simpl. split; [done|].
      apply included_Some in Hst as [[_ ->]|[_ ->]]; discriminate.
    + exists ep. by rewrite list_lookup_insert_ne.
Qed.

Lemma with_exhibitionProducts_id db :
  with_exhibitionProducts db (exhibitionProducts db) = db.
Proof. by destruct db. Qed.

(** C6: (1) whatever requests follow, a row of the table of exhibition
    products whose status is approved or rejected keeps its position and its
    id and never has status pending again; (2) a row a request adds to the
    table has status pending; (3) the status of an existing row changes only
    through the approval route, called with the status approved or rejected,
    which is then the new status of the row; (4) approving, as an authorised
    caller, a row that is already approved succeeds with status 200, returns
    the row and leaves the store as it was. *)
Theorem C6_no_return_to_pending (db : MockDatabase) :
  (forall (requests : list Request) i ep,
     exhibitionProducts db !! i = Some ep ->
     ExhibitionProduct.status ep <> ExhibitionProduct.pending ->
     exists ep',
       exhibitionProducts (run db requests) !! i = Some ep'
       /\ ExhibitionProduct.id ep' = ExhibitionProduct.id ep
       /\ ExhibitionProduct.status ep' <> ExhibitionProduct.pending)
  /\ (forall (r : Request) i ep,
        exhibitionProducts db !! i = None ->
        exhibitionProducts (snd (handle db r)) !! i = Some ep ->
        ExhibitionProduct.status ep = ExhibitionProduct.pending)
  /\ (forall (r : Request) i ep ep',
        exhibitionProducts db !! i = Some ep ->
        exhibitionProducts (snd (handle db r)) !! i = Some ep' ->
        ExhibitionProduct.status ep' <> ExhibitionProduct.status ep ->
        exists body,
          operation r = SetApproval body
          /\ ((destructure body "status" = VStr "approved"
               /\ ExhibitionProduct.status ep' = ExhibitionProduct.approved)
              \/ (destructure body "status" = VStr "rejected"
                  /\ ExhibitionProduct.status ep'
                     = ExhibitionProduct.rejected)))
  /\ (forall (h : Headers) (c : Rbac.AuthContext) (body : jsobj) i ep,
        Rbac.requireRoles db h (Rbac.PERMISSIONS Rbac.APPROVAL_APPROVE)
          = Rbac.Authorized c ->
        destructure body "status" = VStr "approved" ->
        exhibitionProducts db !! i = Some ep ->
        VStr (ExhibitionProduct.id ep) = destructure body "id" ->
        (forall j ep', j < i -> exhibitionProducts db !! j = Some ep' ->
                       VStr (ExhibitionProduct.id ep')
                       <> destructure body "id") ->
        ExhibitionProduct.status ep = ExhibitionProduct.approved ->
        ApproveRoute.POST db h body
        = (json (PExhibitionProduct ep) 200, db)).
Proof.
  split; [|split; [|split]].
  - intros requests. revert db.
    induction requests as [|r rs IH]; intros db i ep Hi Hs; [by exists ep|].
    destruct (handle_settled db r i ep Hi Hs) as (ep1 & Hi1 & Hid1 & Hs1).
    destruct (IH (snd (handle db r)) i ep1 Hi1 Hs1) as (ep' & Hi' & Hid' & Hs').
    exists ep'. split; [exact Hi'|]. split; [congruence|done].
  - intros r i ep Hnone Hi.
    destruct (handle_exhibitionProducts db r)
      as [(news & Heq & Hnews)|(body & i0 & ep0 & st & _ & Hi0 & Hst & Heq)];
      rewrite Heq in Hi.
    + apply lookup_ge_None in Hnone.
      rewrite lookup_app_r in Hi by done.
      rewrite Forall_lookup in Hnews. by eapply Hnews.
    + apply lookup_lt_Some in Hi. rewrite length_insert in Hi.
      apply lookup_ge_None in Hnone. lia.
  - intros r i ep ep' Hi Hi' Hchg.
    destruct (handle_exhibitionProducts db r)
      as [(news & Heq & Hnews)|(body & i0 & ep0 & st & Hop & Hi0 & Hst & Heq)];
      rewrite Heq in Hi'.
    + rewrite (lookup_app_l_Some _ _ _ _ Hi) in Hi'. by simplify_eq.
    + destruct (decide (i0 = i)) as [->|Hne].
      * rewrite list_lookup_insert_eq in Hi' by (by eapply lookup_lt_Some).
        simplify_eq. exists body. split; [done|].
        rewrite merge_only_status. simpl.
        apply included_Some in Hst. tauto.
      * rewrite list_lookup_insert_ne in Hi' by done. by simplify_eq.
  - intros h c body i ep Hauth Hst Hi Hid Hmin Hs.
    rewrite (POST_approve_found db h c body ExhibitionProduct.approved i ep)
      by (done || (rewrite Hst; reflexivity)).
    assert (Hm : ExhibitionProduct.merge ep
                   (ExhibitionProduct.only_status ExhibitionProduct.approved)
                 = ep).
    { rewrite merge_only_status. destruct ep. simpl in Hs. by subst. }
    by rewrite Hm, list_insert_id, with_exhibitionProducts_id.
Qed.

Lemma C6_no_return_to_pending_witness :
  exists ep',
    exhibitionProducts (run INITIAL_DATA duplicate_row_requests) !! 0
    = Some ep'
    /\ ExhibitionProduct.id ep' = "d7gyiq52d"
    /\ ExhibitionProduct.status ep' <> ExhibitionProduct.pending.
Proof.
  refine (proj1 (C6_no_return_to_pending INITIAL_DATA)
            duplicate_row_requests 0
            (seed_exhibitionProduct "d7gyiq52d" "456567"
               ExhibitionProduct.approved) _ _).
  - reflexivity.
  - discriminate.
Defined.

(** C8: (1) the product an authorised caller creates is appended to the
    products table with [isApproved] false; (2) and (3) every row the two
    routes that link products to an exhibition insert has status pending,
    one row per product of the body, whatever the products table holds for
    the linked product; (4) whatever the request, a row it adds to the table
    of exhibition products has status pending; (5) the approval route does
    not touch the products table and (6) the product update route does not
    touch the table of exhibition products. *)
Theorem C8_fresh_defaults (db : MockDatabase) :
  (forall (env : Env) (h : Headers) (c : Rbac.AuthContext)
          (formData : ProductsRoute.Form),
     Rbac.requireRoles db h (Rbac.PERMISSIONS Rbac.PRODUCT_CREATE)
       = Rbac.Authorized c ->
     exists p,
       ProductsRoute.POST db env h formData
       = (json (PProduct p) 201, with_products db (products db ++ [p]))
       /\ Product.isApproved p = Some false)
  /\ (forall (env : Env) (h : Headers) (c : Rbac.AuthContext)
             (exhibitionId : string) (ps : list ProductInput),
        Rbac.requireRoles db h (Rbac.PERMISSIONS Rbac.EXHIBITION_CREATE)
          = Rbac.Authorized c ->
        exists news,
          exhibitionProducts
            (snd (ExhibitionProductsRoute.POST db env h exhibitionId (Some ps)))
          = (exhibitionProducts db ++ news)%list
          /\ ExhibitionProduct.productId <$> news = in_productId <$> ps
          /\ Forall (fun ep => ExhibitionProduct.status ep
                               = ExhibitionProduct.pending) news)
  /\ (forall (env : Env) (h : Headers) (c : Rbac.AuthContext)
             (body : ExhibitionsRoute.Body) (ps : list ProductInput),
        Rbac.requireRoles db h (Rbac.PERMISSIONS Rbac.EXHIBITION_CREATE)
          = Rbac.Authorized c ->
        ExhibitionsRoute.products body = Some ps ->
        exists news,
          exhibitionProducts (snd (ExhibitionsRoute.POST db env h body))
          = (exhibitionProducts db ++ news)%list
          /\ ExhibitionProduct.productId <$> news = in_productId <$> ps
          /\ Forall (fun ep => ExhibitionProduct.status ep
                               = ExhibitionProduct.pending) news)
  /\ (forall (r : Request) i ep,
        exhibitionProducts db !! i = None ->
        exhibitionProducts (snd (handle db r)) !! i = Some ep ->
        ExhibitionProduct.status ep = ExhibitionProduct.pending)
  /\ (forall (h : Headers) (body : jsobj),
        products (snd (ApproveRoute.POST db h body)) = products db)
  /\ (forall (h : Headers) (id : string) (body : Product.partial),
        exhibitionProducts (snd (ProductRoute.PUT db h id body))
        = exhibitionProducts db).
Proof.
  split; [|split; [|split; [|split; [|split]]]].
  - intros env h c formData Hauth. unfold ProductsRoute.POST.
    rewrite Hauth. simpl. eexists. split; reflexivity.
  - intros env h c exhibitionId ps Hauth.
    unfold ExhibitionProductsRoute.POST. rewrite Hauth. simpl.
    rewrite forEach_product_exhibitionProducts.
    eexists. split; [reflexivity|].
    split; [apply imap_rows_productId|apply imap_rows_pending].
  - intros env h c body ps Hauth Hps.
    unfold ExhibitionsRoute.POST. rewrite Hauth, Hps. simpl snd.
    rewrite forEach_product_exhibitionProducts.
    eexists. split; [reflexivity|].
    split; [apply imap_rows_productId|apply imap_rows_pending].
  - intros r i ep Hnone Hi.
    destruct (handle_exhibitionProducts db r)
      as [(news & Heq & Hnews)|(body & i0 & ep0 & st & _ & Hi0 & Hst & Heq)];
      rewrite Heq in Hi.
    + apply lookup_ge_None in Hnone.
      rewrite lookup_app_r in Hi by done.
      rewrite Forall_lookup in Hnews. by eapply Hnews.
    + apply lookup_lt_Some in Hi. rewrite length_insert in Hi.
      apply lookup_ge_None in Hnone. lia.
  - intros h body. unfold ApproveRoute.POST, MockDB.updateExhibitionProduct.
    by_cases_of_handler.
  - intros h id body. unfold ProductRoute.PUT, MockDB.updateProduct.
    by_cases_of_handler.
Qed.

Lemma C8_fresh_defaults_witness :
  MockDB.getProductById INITIAL_DATA (VStr "456567")
  = Some (seed_product "456567" "Maggi" "Instant food" 430 43 12
            "2022-12-11" "In-stock" true)
  /\ exists news,
       exhibitionProducts
         (snd (ExhibitionProductsRoute.POST INITIAL_DATA env0 (Some "u1")
                 "EX-7460" (Some [mkProductInput "456567" 2 None])))
       = (exhibitionProducts INITIAL_DATA ++ news)%list
       /\ ExhibitionProduct.productId <$> news = ["456567"]
       /\ Forall (fun ep => ExhibitionProduct.status ep
                            = ExhibitionProduct.pending) news.
Proof.
  split; [reflexivity|].
  refine (proj1 (proj2 (C8_fresh_defaults INITIAL_DATA))
            env0 (Some "u1") (Rbac.mkContext u1) "EX-7460"
            [mkProductInput "456567" 2 None] _).
  reflexivity.
Defined.

(** ** The totals of product lists (C7) *)

Lemma fold_left_quantity items acc :
  fold_left (fun sum item => (sum + in_quantity item)%Z) items acc
  = (acc + sum_Z (in_quantity <$> items))%Z.
Proof.
  revert acc. induction items as [|item items IH]; intros acc.
  - simpl. lia.
  - change (fold_left (fun sum item => (sum + in_quantity item)%Z) items
              (acc + in_quantity item)%Z
            = (acc + (in_quantity item + sum_Z (in_quantity <$> items)))%Z).
    rewrite IH. lia.
Qed.

(** The [reduce] of the handlers is the sum of the quantities. *)
Lemma reduce_quantity_sum items :
  reduce_quantity items = sum_Z (in_quantity <$> items).
Proof. unfold reduce_quantity. rewrite fold_left_quantity. lia. Qed.

Lemma forEach_item_productListItems db e n x its :
  productListItems (forEach_item db e n x its)
  = (productListItems db
     ++ imap (fun k item => newItem (random e (n + k)) x item) its)%list.
Proof.
  revert db n. induction its as [|p ps IH]; intros db n; simpl.
  - by rewrite app_nil_r.
  - rewrite IH. simpl. rewrite <- app_assoc. simpl.
    rewrite Nat.add_0_r. do 2 f_equal. apply imap_ext.
    intros k q _. simpl. by rewrite Nat.add_succ_r.
Qed.



Lemma filter_filter_negb {A : Type} (f : A -> bool) (l : list A) :
  List.filter f (List.filter (fun x => negb (f x)) l) = [].
Proof.
  induction l as [|a l IH]; simpl; [done|].
  destruct (f a) eqn:Fa; simpl; [done|]. by rewrite Fa.
Qed.

Lemma filter_filter_other (l : list ProductListItem.t) (x y : string) :
  x <> y ->
  List.filter (fun pli => String.eqb (ProductListItem.productListId pli) y)
    (List.filter
       (fun pli => negb (String.eqb (ProductListItem.productListId pli) x)) l)
  = List.filter
      (fun pli => String.eqb (ProductListItem.productListId pli) y) l.
Proof.
  intros Hne. induction l as [|a l IH]; simpl; [done|].
  destruct (String.eqb (ProductListItem.productListId a) x) eqn:Ex; simpl.
  - apply String.eqb_eq in Ex.
    destruct (String.eqb (ProductListItem.productListId a) y) eqn:Ey; [|done].
    apply String.eqb_eq in Ey. congruence.
  - by rewrite IH.
Qed.

Lemma getProductListById_Some db id pl :
  MockDB.getProductListById db id = Some pl <->
  exists i, productLists db !! i = Some pl
            /\ ProductList.id pl = id
            /\ forall j y, j < i -> productLists db !! j = Some y ->
                           ProductList.id y <> id.
Proof.
  unfold MockDB.getProductListById. rewrite find_first.
  split; intros (i & Hi & Hid & Hmin); exists i; (split; [done|]).
  - apply String.eqb_eq in Hid. split; [done|].
    intros j y Hj Hy. specialize (Hmin j y Hj Hy). by apply String.eqb_neq.
  - split; [by apply String.eqb_eq|].
    intros j y Hj Hy. apply String.eqb_neq. by apply (Hmin j).
Qed.

Lemma updateProductList_found db id u i pl :
  productLists db !! i = Some pl ->
  ProductList.id pl = id ->
  (forall j y, j < i -> productLists db !! j = Some y ->
               ProductList.id y <> id) ->
  MockDB.updateProductList db id u
  = Some (ProductList.merge pl u,
          with_productLists db
            (<[i := ProductList.merge pl u]> (productLists db))).
Proof.
  intros Hi Hid Hmin. unfold MockDB.updateProductList.
  rewrite (proj2 (findIndex_Some _ (productLists db) i)).
  - by rewrite Hi.
  - exists pl. split; [done|]. split; [by apply String.eqb_eq|].
    intros j y Hj Hy. apply String.eqb_neq. by apply (Hmin j).
Qed.










Lemma new_items_owner e n x its :
  Forall (fun item => ProductListItem.productListId item = x)
    (imap (fun k item => newItem (random e (n + k)) x item) its).
Proof.
  apply Forall_lookup. intros k item Hk.
  rewrite list_lookup_imap in Hk.
  destruct (its !! k); simpl in Hk; by simplify_eq.
Qed.









(** * Further properties of the store, the middleware and the routes *)

(** ** Closed forms *)

Lemma MockDatabase_ext (a b : MockDatabase) :
  users a = users b -> products a = products b ->
  exhibitions a = exhibitions b ->
  exhibitionProducts a = exhibitionProducts b ->
  orders a = orders b -> productLists a = productLists b ->
  productListItems a = productListItems b -> a = b.
Proof. destruct a, b. simpl. by intros -> -> -> -> -> -> ->. Qed.

Lemma forEach_product_closed db e n x ps :
  ExhibitionProductsRoute.forEach_product db e n x ps
  = with_exhibitionProducts db
      (exhibitionProducts db
       ++ imap (fun k p =>
                  ExhibitionProductsRoute.newExhibitionProduct
                    (random e (n + k)) x p) ps).
Proof.
  apply MockDatabase_ext; simpl;
    try (revert db n; induction ps as [|p ps IH]; intros db n; simpl;
         [done|by rewrite IH]).
  apply forEach_product_exhibitionProducts.
Qed.

Lemma forEach_item_closed db e n x its :
  forEach_item db e n x its
  = with_productListItems db
      (productListItems db
       ++ imap (fun k item => newItem (random e (n + k)) x item) its).
Proof.
  apply MockDatabase_ext; simpl;
    try (revert db n; induction its as [|p ps IH]; intros db n; simpl;
         [done|by rewrite IH]).
  apply forEach_item_productListItems.
Qed.

(** ** What a request can touch (X1 to X4) *)

Lemma with_products_id db : with_products db (products db) = db.
Proof. by destruct db. Qed.

Lemma requireRoles_Unauthorized db h allowed r :
  Rbac.requireRoles db h allowed = Rbac.Unauthorized r ->
  r = json (PError "Unauthorized") 401
  \/ r = json (PError "Forbidden - Insufficient permissions") 403.
Proof.
  unfold Rbac.requireRoles, Rbac.requireAuth.
  destruct (Rbac.authenticateUser db h); [|intros [= <-]; by left].
  destruct (negb _); [intros [= <-]; by right|done].
Qed.

Lemma handle_footprint (db : MockDatabase) (r : Request) :
  let db' := snd (handle db r) in
  users db' = users db
  /\ match operation r with
     | CreateProduct _ | UpdateProduct _ _ | DeleteProduct _ =>
         db' = with_products db (products db')
     | CreateExhibition _ =>
         db' = with_exhibitionProducts
                 (with_exhibitions db (exhibitions db'))
                 (exhibitionProducts db')
     | AddExhibitionProducts _ _ | SetApproval _ =>
         db' = with_exhibitionProducts db (exhibitionProducts db')
     | CreateOrder _ => db' = with_orders db (orders db')
     | CreateProductList _ | UpdateProductList _ _ =>
         db' = with_productListItems
                 (with_productLists db (productLists db'))
                 (productListItems db')
     end.
Proof.
  intros db'. split; [apply handle_users|]. subst db'. unfold handle.
  destruct (operation r); simpl.
  - unfold ProductsRoute.POST.
    destruct (Rbac.requireRoles _ _ _); by apply MockDatabase_ext.
  - unfold ProductRoute.PUT, MockDB.updateProduct.
    repeat case_match; simplify_eq; by apply MockDatabase_ext.
  - unfold ProductRoute.DELETE, MockDB.deleteProduct.
    repeat case_match; simplify_eq; by apply MockDatabase_ext.
  - unfold ExhibitionsRoute.POST.
    destruct (Rbac.requireRoles _ _ _); [|by apply MockDatabase_ext].
    destruct (ExhibitionsRoute.products body); simpl;
      rewrite ?forEach_product_closed; by apply MockDatabase_ext.
  - unfold ExhibitionProductsRoute.POST.
    destruct (Rbac.requireRoles _ _ _); [|by apply MockDatabase_ext].
    destruct products0; simpl; rewrite ?forEach_product_closed;
      by apply MockDatabase_ext.
  - unfold ApproveRoute.POST, MockDB.updateExhibitionProduct.
    repeat case_match; simplify_eq; by apply MockDatabase_ext.
  - unfold OrdersRoute.POST.
    destruct (Rbac.requireRoles _ _ _); [|by apply MockDatabase_ext].
    destruct (truthy _ && truthy _ && isArray _);
      [destruct (OrdersRoute.validate _ _ _)|]; by apply MockDatabase_ext.
  - unfold ProductListsRoute.POST, MockDB.addProductList.
    repeat case_match; simplify_eq; simpl;
      rewrite ?forEach_item_closed; by apply MockDatabase_ext.
  - unfold ProductListRoute.PUT, MockDB.updateProductList,
      MockDB.deleteProductListItemsByProductListId.
    repeat case_match; simplify_eq; simpl;
      rewrite ?forEach_item_closed; by apply MockDatabase_ext.
Qed.

(** X1: the footprint of each writing route.  The product routes change at
    most the products table; the creation of an exhibition at most the
    exhibitions and the exhibition products; the linking and the approval
    routes at most the exhibition products; the creation of an order at most
    the orders; the product-list routes at most the lists and their items.
    In particular deleting a product leaves the rows and items that name it
    in place, and no route writes the users table. *)
Theorem X1_footprint (db : MockDatabase) (r : Request) :
  let db' := snd (handle db r) in
  users db' = users db
  /\ match operation r with
     | CreateProduct _ | UpdateProduct _ _ | DeleteProduct _ =>
         db' = with_products db (products db')
     | CreateExhibition _ =>
         db' = with_exhibitionProducts
                 (with_exhibitions db (exhibitions db'))
                 (exhibitionProducts db')
     | AddExhibitionProducts _ _ | SetApproval _ =>
         db' = with_exhibitionProducts db (exhibitionProducts db')
     | CreateOrder _ => db' = with_orders db (orders db')
     | CreateProductList _ | UpdateProductList _ _ =>
         db' = with_productListItems
                 (with_productLists db (productLists db'))
                 (productListItems db')
     end.
Proof. apply handle_footprint. Qed.

Lemma handle_refused (db : MockDatabase) (r : Request)
    (response : NextResponse) :
  Rbac.requireRoles db (x_user_id r)
    (Rbac.PERMISSIONS (required_permission (operation r)))
  = Rbac.Unauthorized response ->
  handle db r = (response, db)
  /\ (res_status response = 401 \/ res_status response = 403).
Proof.
  intros H. split.
  - unfold handle. destruct (operation r);
      unfold required_permission in H; cbv beta iota;
      [unfold ProductsRoute.POST|unfold ProductRoute.PUT
      |unfold ProductRoute.DELETE|unfold ExhibitionsRoute.POST
      |unfold ExhibitionProductsRoute.POST|unfold ApproveRoute.POST
      |unfold OrdersRoute.POST|unfold ProductListsRoute.POST
      |unfold ProductListRoute.PUT]; by rewrite H.
  - apply requireRoles_Unauthorized in H as [-> | ->]; simpl; auto.
Qed.

(** X2: a request the middleware refuses for the capability of its route is
    answered with that refusal, 401 or 403, and leaves the store as it was,
    whatever its body. *)
Theorem X2_refused_changes_nothing (db : MockDatabase) (r : Request)
    (response : NextResponse) :
  Rbac.requireRoles db (x_user_id r)
    (Rbac.PERMISSIONS (required_permission (operation r)))
  = Rbac.Unauthorized response ->
  handle db r = (response, db)
  /\ (res_status response = 401 \/ res_status response = 403).
Proof. apply handle_refused. Qed.

Lemma X2_refused_changes_nothing_witness :
  handle INITIAL_DATA
    (mkRequest (Some "u4") env0 (DeleteProduct "456567"))
  = (json (PError "Forbidden - Insufficient permissions") 403, INITIAL_DATA)
  /\ (403 = 401 \/ 403 = 403).
Proof.
  exact (X2_refused_changes_nothing INITIAL_DATA
           (mkRequest (Some "u4") env0 (DeleteProduct "456567"))
           (json (PError "Forbidden - Insufficient permissions") 403)
           eq_refl).
Defined.

Lemma includes_In allowed x : includes allowed x = true <-> x ∈ allowed.
Proof.
  unfold includes. rewrite existsb_exists. split.
  - intros (y & Hy & He). apply String.eqb_eq in He as ->.
    by apply list_elem_of_In.
  - intros Hx. exists x. split; [by apply list_elem_of_In|].
    apply String.eqb_refl.
Qed.

(** A request that changes the store was let through by the middleware. *)
Lemma handle_changed db r :
  snd (handle db r) <> db ->
  exists c,
    Rbac.authenticateUser db (x_user_id r) = Some c
    /\ User.role (Rbac.user c)
       ∈ Rbac.PERMISSIONS (required_permission (operation r)).
Proof.
  intros Hne.
  destruct (requireRoles_cases db (x_user_id r)
              (Rbac.PERMISSIONS (required_permission (operation r))))
    as [(resp & Hr & _)|(c & _ & Hc & Hrole)].
  - destruct (handle_refused db r resp Hr) as [Hh _].
    rewrite Hh in Hne. done.
  - exists c. split; [done|]. by apply includes_In.
Qed.

(** X3: who can write what.  A request that changes the store comes from an
    actor whose role is ADMIN, MANAGER or USER, never from a VIEWER or an
    unknown actor; one that changes the exhibitions or the exhibition products
    comes from an ADMIN or a MANAGER; one that shortens the products table
    comes from an ADMIN. *)
Theorem X3_writers (db : MockDatabase) (r : Request) :
  let db' := snd (handle db r) in
  (db' <> db ->
   exists c, Rbac.authenticateUser db (x_user_id r) = Some c
             /\ User.role (Rbac.user c) ∈ ["ADMIN"; "MANAGER"; "USER"])
  /\ (exhibitions db' <> exhibitions db
      \/ exhibitionProducts db' <> exhibitionProducts db ->
      exists c, Rbac.authenticateUser db (x_user_id r) = Some c
                /\ User.role (Rbac.user c) ∈ ["ADMIN"; "MANAGER"])
  /\ (length (products db') < length (products db) ->
      exists c, Rbac.authenticateUser db (x_user_id r) = Some c
                /\ User.role (Rbac.user c) = "ADMIN").
Proof.
  intros db'. split; [|split].
  - intros Hne. destruct (handle_changed db r Hne) as (c & Hc & Hrole).
    exists c. split; [done|].
    destruct (operation r); simpl in Hrole;
      rewrite ?elem_of_cons in *; tauto.
  - intros Hne.
    assert (Hdb : db' <> db).
    { intros Heq. rewrite Heq in Hne. tauto. }
    destruct (handle_changed db r Hdb) as (c & Hc & Hrole).
    exists c. split; [done|].
    destruct (handle_footprint db r) as [_ Hfp]. fold db' in Hfp.
    destruct (operation r); simpl in Hrole; try done;
      rewrite Hfp in Hne; simpl in Hne; tauto.
  - intros Hlt.
    assert (Hdb : db' <> db).
    { intros Heq. rewrite Heq in Hlt. lia. }
    destruct (handle_changed db r Hdb) as (c & Hc & Hrole).
    exists c. split; [done|].
    destruct (handle_footprint db r) as [_ Hfp]. fold db' in Hfp.
    destruct (operation r) eqn:Hop; simpl in Hrole;
      try (rewrite Hfp in Hlt; simpl in Hlt; lia).
    + exfalso. subst db'. unfold handle in Hlt. rewrite Hop in Hlt.
      unfold ProductsRoute.POST in Hlt.
      destruct (Rbac.requireRoles _ _ _); simpl in Hlt;
        rewrite ?length_app in Hlt; lia.
    + exfalso. subst db'. unfold handle in Hlt. rewrite Hop in Hlt.
      unfold ProductRoute.PUT, MockDB.updateProduct in Hlt.
      repeat case_match; simplify_eq; simpl in Hlt;
        rewrite ?length_insert in Hlt; lia.
    + by apply list_elem_of_singleton in Hrole.
Qed.

Lemma X3_writers_witness :
  exists c,
    Rbac.authenticateUser INITIAL_DATA (Some "u1") = Some c
    /\ User.role (Rbac.user c) = "ADMIN".
Proof.
  refine (proj2 (proj2 (X3_writers INITIAL_DATA
            (mkRequest (Some "u1") env0 (DeleteProduct "456567")))) _).
  vm_compute. lia.
Defined.

(** In a store with the seeded users every authenticated actor is one of
    them. *)
Lemma seeded_actor db h c :
  users db = users INITIAL_DATA ->
  Rbac.authenticateUser db h = Some c ->
  Rbac.user c = u1 \/ Rbac.user c = u2 \/ Rbac.user c = u3 \/ Rbac.user c = u4.
Proof.
  intros Hu. unfold Rbac.authenticateUser.
  set (uid := match h with Some v => _ | None => _ end).
  rewrite (getUserById_seed db uid Hu).
  repeat case_match; intros; simplify_eq; simpl; tauto.
Qed.

(** With the seeded users the middleware lets every authenticated actor
    read. *)
Lemma requireRoles_read db h p :
  users db = users INITIAL_DATA ->
  p = Rbac.PRODUCT_READ \/ p = Rbac.EXHIBITION_READ
  \/ p = Rbac.APPROVAL_READ \/ p = Rbac.ORDER_READ ->
  Rbac.requireRoles db h (Rbac.PERMISSIONS p)
  = match Rbac.authenticateUser db h with
    | Some c => Rbac.Authorized c
    | None => Rbac.Unauthorized (json (PError "Unauthorized") 401)
    end.
Proof.
  intros Hu Hp. unfold Rbac.requireRoles, Rbac.requireAuth.
  destruct (Rbac.authenticateUser db h) as [c|] eqn:Hc; [|done].
  apply (seeded_actor db h c Hu) in Hc. unfold Rbac.hasRole.
  destruct Hp as [-> | [-> | [-> | ->]]];
    destruct Hc as [-> | [-> | [-> | ->]]]; reflexivity.
Qed.

(** X4: in every store reached from the seed data the reading routes are
    open to every actor the middleware can authenticate and never answer 403.
    For such an actor the four table routes answer the whole table, the route
    of one product answers the earliest product of that id or 404, and the
    filtered routes answer data; for a header that names no seeded user every
    reading route answers 401. *)
Theorem X4_read_routes (requests : list Request) (h : Headers) :
  let db := run INITIAL_DATA requests in
  match Rbac.authenticateUser db h with
  | Some _ =>
      ProductsRoute.GET db h = Data (products db)
      /\ ExhibitionsRoute.GET db h = Data (exhibitions db)
      /\ ProductListsRoute.GET db h None = Data (productLists db)
      /\ (forall id,
            ProductRoute.GET db h id
            = match MockDB.getProductById db (VStr id) with
              | Some product => Data product
              | None => Refused (json (PError "Product not found") 404)
              end)
      /\ (exists data, OrdersRoute.GET db h = Data data)
      /\ (exists data, ApproveRoute.GET db h = Data data)
      /\ (forall code, exists data,
            ExhibitionProductsRoute.GET db h code = Data data)
      /\ (forall id,
            (exists data, ProductListRoute.GET db h id = Data data)
            \/ (MockDB.getProductListById db id = None
                /\ ProductListRoute.GET db h id
                   = Refused (json (PError "Product list not found") 404)))
  | None =>
      let refusal := json (PError "Unauthorized") 401 in
      ProductsRoute.GET db h = Refused refusal
      /\ ExhibitionsRoute.GET db h = Refused refusal
      /\ OrdersRoute.GET db h = Refused refusal
      /\ ApproveRoute.GET db h = Refused refusal
      /\ (forall e, ProductListsRoute.GET db h e = Refused refusal)
      /\ (forall id, ProductRoute.GET db h id = Refused refusal)
      /\ (forall id, ProductListRoute.GET db h id = Refused refusal)
      /\ (forall code,
            ExhibitionProductsRoute.GET db h code = Refused refusal)
  end.
Proof.
  intros db.
  assert (Hu : users db = users INITIAL_DATA) by apply run_users.
  assert (Hread := fun p => requireRoles_read db h p Hu).
  unfold ProductsRoute.GET, ExhibitionsRoute.GET, ProductListsRoute.GET,
    ProductRoute.GET, OrdersRoute.GET, ApproveRoute.GET,
    ExhibitionProductsRoute.GET, ProductListRoute.GET.
  rewrite !Hread by tauto.
  destruct (Rbac.authenticateUser db h) as [c|]; [|by repeat split].
  repeat split; eauto.
  intros id. destruct (MockDB.getProductListById db id); eauto.
Qed.

(** ** The answer of the gate (X5 to X9) *)

Lemma find_app' {A : Type} (f : A -> bool) (l k : list A) :
  List.find f (l ++ k)
  = match List.find f l with
    | Some x => Some x
    | None => List.find f k
    end.
Proof.
  induction l as [|a l IH]; simpl; [done|]. by destruct (f a).
Qed.

(** [find] returns the element at the index [findIndex] returns. *)
Lemma find_findIndex {A : Type} (f : A -> bool) (l : list A) :
  List.find f l = findIndex f l ≫= fun i => l !! i.
Proof.
  induction l as [|a l IH]; simpl; [done|].
  destruct (f a); [done|]. rewrite IH. by destruct (findIndex f l).
Qed.

(** Replacing an element by one the predicate judges alike does not move
    the first match. *)
Lemma findIndex_insert_same {A : Type} (f : A -> bool) (l : list A) i x x' :
  l !! i = Some x -> f x' = f x ->
  findIndex f (<[i := x']> l) = findIndex f l.
Proof.
  revert i. induction l as [|a l IH]; intros i Hi Hf; [done|].
  destruct i as [|i]; simpl in *.
  - simplify_eq. by rewrite Hf.
  - by rewrite (IH i Hi Hf).
Qed.

Lemma isApproved_findIndex db E P :
  MockDB.isProductApprovedForExhibition db E P
  = match findIndex
            (fun ep =>
               strict_eq_str (ExhibitionProduct.exhibitionId ep) E
               && strict_eq_str (ExhibitionProduct.productId ep) P)
            (exhibitionProducts db) ≫= fun i => exhibitionProducts db !! i with
    | Some ep =>
        ExhibitionProduct.Status_eqb (ExhibitionProduct.status ep)
          ExhibitionProduct.approved
    | None => false
    end.
Proof.
  unfold MockDB.isProductApprovedForExhibition. by rewrite find_findIndex.
Qed.

(** Appending pending rows does not change the answer for any pair. *)
Lemma isApproved_append db db' news E P :
  exhibitionProducts db' = (exhibitionProducts db ++ news)%list ->
  Forall (fun ep => ExhibitionProduct.status ep = ExhibitionProduct.pending)
    news ->
  MockDB.isProductApprovedForExhibition db' E P
  = MockDB.isProductApprovedForExhibition db E P.
Proof.
  intros Heq Hnews. unfold MockDB.isProductApprovedForExhibition.
  rewrite Heq, find_app'.
  destruct (List.find _ (exhibitionProducts db)); [done|].
  destruct (List.find _ news) as [ep|] eqn:Hf; [|done].
  apply find_some in Hf as [Hin _]. rewrite Forall_forall in Hnews.
  by rewrite (Hnews ep) by (by apply list_elem_of_In).
Qed.

Lemma handle_gate db r E P :
  (forall body, operation r <> SetApproval body) ->
  MockDB.isProductApprovedForExhibition (snd (handle db r)) E P
  = MockDB.isProductApprovedForExhibition db E P.
Proof.
  intros Hop.
  destruct (handle_exhibitionProducts db r)
    as [(news & Heq & Hnews)|(body & i & ep & st & Hb & _)].
  - by apply (isApproved_append db _ news).
  - by destruct (Hop body).
Qed.

(** X5: only the approval route moves the gate.  Over any sequence of
    requests none of which is an approval, whoever sends them, the answer of
    [isProductApprovedForExhibition] is the same for every exhibition and
    product before and after: linking a product again, creating exhibitions,
    products, orders or lists cannot open or close it. *)
Theorem X5_gate_moves_only_by_approval (db : MockDatabase)
    (requests : list Request) (E P : jsval) :
  Forall (fun r => forall body, operation r <> SetApproval body) requests ->
  MockDB.isProductApprovedForExhibition (run db requests) E P
  = MockDB.isProductApprovedForExhibition db E P.
Proof.
  revert db. induction requests as [|r rs IH]; intros db Hall; [done|].
  apply Forall_cons in Hall as [Hr Hrs]. unfold run in *. simpl.
  rewrite IH by done. by apply handle_gate.
Qed.

Lemma X5_gate_moves_only_by_approval_witness :
  MockDB.isProductApprovedForExhibition
    (run INITIAL_DATA
       [mkRequest (Some "u2") env0
          (AddExhibitionProducts "EX-2941"
             (Some [mkProductInput "456568" 1 None;
                    mkProductInput "456569" 3 None]))])
    (VStr "EX-2941") (VStr "456567")
  = MockDB.isProductApprovedForExhibition INITIAL_DATA
      (VStr "EX-2941") (VStr "456567").
Proof.
  apply X5_gate_moves_only_by_approval.
  constructor; [|constructor]. intros body. discriminate.
Defined.

(** X6: what an approval does to the gate.  When an authorised caller sets
    the status of the earliest row of an id, the answer of
    [isProductApprovedForExhibition] for the exhibition and product of that
    row becomes "the new status is approved" if the row is the earliest row of
    its pair, and the answer for every other pair, and for a row that is not
    the earliest of its pair, stays what it was. *)
Theorem X6_approval_moves_gate (db : MockDatabase) (h : Headers)
    (c : Rbac.AuthContext) (id status : string)
    (st : ExhibitionProduct.Status) (i : nat) (ep : ExhibitionProduct.t) :
  Rbac.requireRoles db h (Rbac.PERMISSIONS Rbac.APPROVAL_APPROVE)
    = Rbac.Authorized c ->
  ApproveRoute.included (VStr status) = Some st ->
  exhibitionProducts db !! i = Some ep ->
  ExhibitionProduct.id ep = id ->
  (forall j ep', j < i -> exhibitionProducts db !! j = Some ep' ->
                 ExhibitionProduct.id ep' <> id) ->
  let db' := snd (ApproveRoute.POST db h (approval_body id status)) in
  (earliest_of_pair db i ->
   MockDB.isProductApprovedForExhibition db'
     (VStr (ExhibitionProduct.exhibitionId ep))
     (VStr (ExhibitionProduct.productId ep))
   = ExhibitionProduct.Status_eqb st ExhibitionProduct.approved)
  /\ (forall E P : jsval,
        E <> VStr (ExhibitionProduct.exhibitionId ep)
        \/ P <> VStr (ExhibitionProduct.productId ep)
        \/ ~ earliest_of_pair db i ->
        MockDB.isProductApprovedForExhibition db' E P
        = MockDB.isProductApprovedForExhibition db E P).
Proof.
  intros Hauth Hst Hi Hid Hmin db'.
  assert (Heps : exhibitionProducts db'
                 = <[i := ExhibitionProduct.merge ep
                            (ExhibitionProduct.only_status st)]>
                     (exhibitionProducts db)).
  { subst db'.
    rewrite (POST_approve_found db h c (approval_body id status) st i ep);
      try done.
    - by rewrite <- Hid.
    - intros j ep' Hj Hj' [= Heq]. by apply (Hmin j ep'). }
  assert (Hidx : forall E P,
            findIndex
              (fun ep =>
                 strict_eq_str (ExhibitionProduct.exhibitionId ep) E
                 && strict_eq_str (ExhibitionProduct.productId ep) P)
              (exhibitionProducts db')
            = findIndex
                (fun ep =>
                   strict_eq_str (ExhibitionProduct.exhibitionId ep) E
                   && strict_eq_str (ExhibitionProduct.productId ep) P)
                (exhibitionProducts db)).
  { intros E P. rewrite Heps.
    apply (findIndex_insert_same _ _ i ep); [done|].
    by rewrite merge_only_status. }
  split.
  - intros (ep0 & Hi0 & Hpair). rewrite Hi in Hi0. injection Hi0 as <-.
    rewrite isApproved_findIndex, Hidx.
    rewrite (proj2 (findIndex_Some _ (exhibitionProducts db) i)).
    + simpl. rewrite Heps, list_lookup_insert_eq
        by (by eapply lookup_lt_Some).
      by rewrite merge_only_status.
    + exists ep. split; [done|]. simpl. rewrite !String.eqb_refl.
      split; [done|]. intros j y Hj Hy.
      apply not_true_is_false. intros Hm.
      apply andb_true_iff in Hm as [H1 H2].
      apply String.eqb_eq in H1, H2.
      by apply (Hpair j y Hj Hy).
  - intros E P Hother. rewrite !isApproved_findIndex, Hidx.
    destruct (findIndex _ (exhibitionProducts db)) as [k|] eqn:Hk; [|done].
    simpl. destruct (decide (k = i)) as [->|Hne].
    + exfalso. apply findIndex_Some in Hk as (x & Hx & Hm & Hfirst).
      rewrite Hi in Hx. injection Hx as <-.
      apply andb_true_iff in Hm as [H1 H2].
      apply strict_eq_str_true in H1, H2.
      destruct Hother as [HE | [HP | Hnot]]; [done|done|].
      apply Hnot. exists ep. split; [done|].
      intros j y Hj Hy [HE HP]. specialize (Hfirst j y Hj Hy).
      rewrite H1, H2 in Hfirst. simpl in Hfirst.
      rewrite HE, HP, !String.eqb_refl in Hfirst. discriminate.
    + by rewrite Heps, list_lookup_insert_ne.
Qed.

Lemma X6_approval_moves_gate_witness :
  MockDB.isProductApprovedForExhibition
    (snd (ApproveRoute.POST INITIAL_DATA (Some "u2")
            (approval_body "is0w5qty1" "approved")))
    (VStr "EX-2941") (VStr "456570")
  = true.
Proof.
  refine (proj1
    (X6_approval_moves_gate INITIAL_DATA (Some "u2") (Rbac.mkContext u2)
       "is0w5qty1" "approved" ExhibitionProduct.approved 2
       (seed_exhibitionProduct "is0w5qty1" "456570" ExhibitionProduct.pending)
       _ _ _ _ _) _).
  - reflexivity.
  - reflexivity.
  - reflexivity.
  - reflexivity.
  - intros [|[|j]] ep' Hj Hy; [| |lia]; simpl in Hy;
      injection Hy as <-; discriminate.
  - eexists. split; [reflexivity|].
    intros [|[|j]] ep' Hj Hy [_ HP]; [| |lia]; simpl in Hy;
      injection Hy as <-; discriminate.
Defined.

(** X7: the two helpers of the gate.  When
    [isProductApprovedForExhibition] answers true for an exhibition and a
    product, [getApprovedExhibitionProducts] of the exhibition holds a row of
    that product; the converse holds in a store with at most one row per
    exhibition and product, and fails without that: after the product 456568
    is linked a second time to EX-2941 and the second row approved, the list
    holds the product and the lookup answers false. *)
Theorem X7_gate_and_approved_list :
  (forall (db : MockDatabase) (E P : string),
     MockDB.isProductApprovedForExhibition db (VStr E) (VStr P) = true ->
     exists ep, ep ∈ MockDB.getApprovedExhibitionProducts db E
                /\ ExhibitionProduct.productId ep = P)
  /\ (forall (db : MockDatabase) (E P : string) (ep : ExhibitionProduct.t),
        unique_rows db ->
        ep ∈ MockDB.getApprovedExhibitionProducts db E ->
        ExhibitionProduct.productId ep = P ->
        MockDB.isProductApprovedForExhibition db (VStr E) (VStr P) = true)
  /\ (let db := run INITIAL_DATA duplicate_row_requests in
      "456568" ∈ ExhibitionProduct.productId
                   <$> MockDB.getApprovedExhibitionProducts db "EX-2941"
      /\ MockDB.isProductApprovedForExhibition db
           (VStr "EX-2941") (VStr "456568") = false).
Proof.
  split; [|split].
  - intros db E P. unfold MockDB.isProductApprovedForExhibition,
      MockDB.getApprovedExhibitionProducts.
    destruct (List.find _ _) as [ep|] eqn:Hf; [|done]. intros Hs.
    apply find_some in Hf as [Hin Hm].
    apply andb_true_iff in Hm as [HE HP]. simpl in HE, HP.
    apply String.eqb_eq in HP. exists ep. split; [|done].
    apply list_elem_of_In, List.filter_In. split; [done|].
    by rewrite HE, Hs.
  - intros db E P ep Hu Hin HP.
    unfold MockDB.getApprovedExhibitionProducts in Hin.
    apply list_elem_of_In, List.filter_In in Hin as [Hin Hm].
    apply andb_true_iff in Hm as [HE Hs]. apply String.eqb_eq in HE.
    apply list_elem_of_In, list_elem_of_lookup in Hin as [i Hi].
    unfold MockDB.isProductApprovedForExhibition.
    destruct (List.find _ _) as [ep0|] eqn:Hf.
    + apply find_first in Hf as (j & Hj & Hm & _).
      apply andb_true_iff in Hm as [HE0 HP0]. simpl in HE0, HP0.
      apply String.eqb_eq in HE0, HP0.
      assert (j = i) by (apply (Hu j i ep0 ep); congruence).
      by simplify_eq.
    + pose proof (find_none _ _ Hf ep) as Hn. simpl in Hn.
      rewrite HE, HP, !String.eqb_refl in Hn.
      discriminate Hn. apply list_elem_of_In, list_elem_of_lookup. eauto.
  - split; [|vm_compute; reflexivity].
    vm_compute. do 1 right. left.
Qed.

Lemma X7_gate_and_approved_list_witness :
  exists ep,
    ep ∈ MockDB.getApprovedExhibitionProducts INITIAL_DATA "EX-2941"
    /\ ExhibitionProduct.productId ep = "456567".
Proof.
  exact (proj1 X7_gate_and_approved_list INITIAL_DATA "EX-2941" "456567"
           eq_refl).
Defined.

Lemma assign_status_merge ep st :
  MockDB.assign_status ep st
  = ExhibitionProduct.merge ep (ExhibitionProduct.only_status st).
Proof. by rewrite merge_only_status. Qed.

Lemma assignStatus_update db id st :
  MockDB.assignExhibitionProductStatus db id st
  = MockDB.updateExhibitionProduct db (VStr id)
      (ExhibitionProduct.only_status st).
Proof.
  unfold MockDB.assignExhibitionProductStatus, MockDB.updateExhibitionProduct.
  simpl. destruct (findIndex _ _) as [i|]; [|done].
  destruct (exhibitionProducts db !! i); [|done].
  by rewrite assign_status_merge.
Qed.

(** X8: the two ways the store changes a status agree.  The helpers
    [approveExhibitionProduct] and [rejectExhibitionProduct], which assign
    the status of the row they find, return the row and leave the store that
    [updateExhibitionProduct] with [{ status }] returns and leaves; and the
    approval route, for an authorised caller and a valid status, answers 404
    when the helper answers null and otherwise answers the row of the helper
    and leaves the store of the helper. *)
Theorem X8_helpers_agree (db : MockDatabase) (id : string) :
  MockDB.approveExhibitionProduct db id
  = MockDB.updateExhibitionProduct db (VStr id)
      (ExhibitionProduct.only_status ExhibitionProduct.approved)
  /\ MockDB.rejectExhibitionProduct db id
     = MockDB.updateExhibitionProduct db (VStr id)
         (ExhibitionProduct.only_status ExhibitionProduct.rejected)
  /\ (forall (h : Headers) (c : Rbac.AuthContext),
        Rbac.requireRoles db h (Rbac.PERMISSIONS Rbac.APPROVAL_APPROVE)
          = Rbac.Authorized c ->
        ApproveRoute.POST db h (approval_body id "approved")
        = match MockDB.approveExhibitionProduct db id with
          | Some (ep, db') => (json (PExhibitionProduct ep) 200, db')
          | None => (json (PError "Product not found") 404, db)
          end
        /\ ApproveRoute.POST db h (approval_body id "rejected")
           = match MockDB.rejectExhibitionProduct db id with
             | Some (ep, db') => (json (PExhibitionProduct ep) 200, db')
             | None => (json (PError "Product not found") 404, db)
             end).
Proof.
  unfold MockDB.approveExhibitionProduct, MockDB.rejectExhibitionProduct.
  rewrite !assignStatus_update. split; [done|]. split; [done|].
  intros h c Hauth. unfold ApproveRoute.POST. rewrite Hauth.
  change (destructure (approval_body id "approved") "id") with (VStr id).
  change (destructure (approval_body id "rejected") "id") with (VStr id).
  split.
  - change (ApproveRoute.included
              (destructure (approval_body id "approved") "status"))
      with (Some ExhibitionProduct.approved).
    reflexivity.
  - change (ApproveRoute.included
              (destructure (approval_body id "rejected") "status"))
      with (Some ExhibitionProduct.rejected).
    reflexivity.
Qed.

Lemma X8_helpers_agree_witness :
  ApproveRoute.POST INITIAL_DATA (Some "u1")
    (approval_body "nosuchrow" "approved")
  = match MockDB.approveExhibitionProduct INITIAL_DATA "nosuchrow" with
    | Some (ep, db') => (json (PExhibitionProduct ep) 200, db')
    | None => (json (PError "Product not found") 404, INITIAL_DATA)
    end.
Proof.
  refine (proj1 (proj2 (proj2 (X8_helpers_agree INITIAL_DATA "nosuchrow"))
            (Some "u1") (Rbac.mkContext u1) _)).
  reflexivity.
Defined.

(** The middleware reads the users table only. *)
Lemma requireRoles_users db db' h allowed :
  users db' = users db ->
  Rbac.requireRoles db' h allowed = Rbac.requireRoles db h allowed.
Proof.
  intros Hu. unfold Rbac.requireRoles, Rbac.requireAuth,
    Rbac.authenticateUser, MockDB.getUserById. by rewrite Hu.
Qed.

(** The approval route after an approval of the same id. *)
Lemma POST_approve_twice db h body body' :
  destructure body' "id" = destructure body "id" ->
  is_Some (ApproveRoute.included (destructure body "status")) ->
  is_Some (ApproveRoute.included (destructure body' "status")) ->
  ApproveRoute.POST (snd (ApproveRoute.POST db h body)) h body'
  = ApproveRoute.POST db h body'.
Proof.
  intros Hid [st Hst] [st' Hst']. unfold ApproveRoute.POST.
  destruct (Rbac.requireRoles db h _) as [c|resp] eqn:Hauth;
    [|by simpl snd; rewrite Hauth].
  rewrite Hst. unfold MockDB.updateExhibitionProduct.
  destruct (findIndex _ (exhibitionProducts db)) as [i|] eqn:Hidx;
    [|by simpl snd; rewrite Hauth, Hst', Hid, Hidx].
  destruct (exhibitionProducts db !! i) as [ep|] eqn:Hi;
    [|by simpl snd; rewrite Hauth, Hst', Hid, Hidx, Hi].
  simpl snd.
  rewrite (requireRoles_users db) by done.
  rewrite Hauth, Hst', Hid. simpl exhibitionProducts.
  rewrite (findIndex_insert_same _ _ i ep) by
    (done || by rewrite merge_only_status).
  rewrite Hidx, Hi.
  rewrite list_lookup_insert_eq by (by eapply lookup_lt_Some).
  rewrite list_insert_insert_eq, !merge_only_status. simpl.
  by destruct db.
Qed.

(** X9: approvals compose by "the last one wins".  For two approval
    requests of the same caller on the same id, both with a valid status, the
    second one answers and leaves the store as if the first had never been
    sent; in particular sending the same approval twice answers the same
    twice and changes the store once. *)
Theorem X9_last_approval_wins (db : MockDatabase) (h : Headers)
    (id status status' : string) :
  is_Some (ApproveRoute.included (VStr status)) ->
  is_Some (ApproveRoute.included (VStr status')) ->
  let first := ApproveRoute.POST db h (approval_body id status) in
  ApproveRoute.POST (snd first) h (approval_body id status')
  = ApproveRoute.POST db h (approval_body id status')
  /\ ApproveRoute.POST (snd first) h (approval_body id status) = first.
Proof.
  intros Hs Hs' first. subst first.
  split; apply POST_approve_twice; done.
Qed.

Lemma X9_last_approval_wins_witness :
  ApproveRoute.POST
    (snd (ApproveRoute.POST INITIAL_DATA (Some "u2")
            (approval_body "cszttszpu" "approved")))
    (Some "u2") (approval_body "cszttszpu" "rejected")
  = ApproveRoute.POST INITIAL_DATA (Some "u2")
      (approval_body "cszttszpu" "rejected").
Proof.
  refine (proj1 (X9_last_approval_wins INITIAL_DATA (Some "u2")
            "cszttszpu" "approved" "rejected" _ _)).
  - eexists. reflexivity.
  - eexists. reflexivity.
Defined.

(** ** The products (X10 to X12) *)

Lemma findIndex_middle {A : Type} (f : A -> bool) (pre post : list A) x :
  f x = true -> (forall y, y ∈ pre -> f y = false) ->
  findIndex f (pre ++ x :: post) = Some (length pre).
Proof.
  intros Hx Hpre. apply findIndex_Some. exists x.
  split; [by rewrite lookup_app_r, Nat.sub_diag|]. split; [done|].
  intros j y Hj Hy. rewrite lookup_app_l in Hy by done.
  apply Hpre, list_elem_of_lookup. eauto.
Qed.

Lemma find_none_iff {A : Type} (f : A -> bool) (l : list A) :
  List.find f l = None <-> forall y, y ∈ l -> f y = false.
Proof.
  rewrite find_findIndex. split.
  - intros H. apply findIndex_None.
    destruct (findIndex f l) as [i|] eqn:Hi; [|done].
    apply findIndex_Some in Hi as (x & Hx & _). simpl in H. congruence.
  - intros H. by rewrite (proj2 (findIndex_None f l) H).
Qed.

(** X10: deleting a product.  For an authorised caller the route answers 404
    and changes nothing when no product carries the id; otherwise it removes
    the earliest product of that id and nothing else, keeping the order of
    the others, and a later lookup of the id finds the next product of that
    id, if the table held the id twice, and nothing otherwise. *)
Theorem X10_delete_product (db : MockDatabase) (h : Headers)
    (c : Rbac.AuthContext) (id : string) :
  Rbac.requireRoles db h (Rbac.PERMISSIONS Rbac.PRODUCT_DELETE)
    = Rbac.Authorized c ->
  ((forall p, p ∈ products db -> Product.id p <> id) ->
   ProductRoute.DELETE db h id = (json (PError "Product not found") 404, db))
  /\ (forall pre p post,
        products db = (pre ++ p :: post)%list ->
        Product.id p = id ->
        (forall q, q ∈ pre -> Product.id q <> id) ->
        ProductRoute.DELETE db h id
        = (json (PMessage "Product deleted") 200,
           with_products db (pre ++ post))
        /\ MockDB.getProductById (with_products db (pre ++ post)) (VStr id)
           = List.find (fun q => String.eqb (Product.id q) id) post).
Proof.
  intros Hauth. unfold ProductRoute.DELETE, MockDB.deleteProduct.
  rewrite Hauth. split.
  - intros Hno. rewrite (proj2 (findIndex_None _ (products db))); [done|].
    intros p Hp. apply String.eqb_neq. by apply Hno.
  - intros pre p post Hl Hid Hpre. rewrite Hl.
    rewrite (findIndex_middle _ pre post p).
    + rewrite delete_middle. split; [done|].
      unfold MockDB.getProductById. simpl. rewrite find_app'.
      rewrite (proj2 (find_none_iff _ pre)); [done|].
      intros q Hq. apply String.eqb_neq. by apply Hpre.
    + by apply String.eqb_eq.
    + intros q Hq. apply String.eqb_neq. by apply Hpre.
Qed.

Lemma X10_delete_product_witness :
  ProductRoute.DELETE INITIAL_DATA (Some "u1") "nosuchproduct"
  = (json (PError "Product not found") 404, INITIAL_DATA).
Proof.
  refine (proj1 (X10_delete_product INITIAL_DATA (Some "u1")
                   (Rbac.mkContext u1) "nosuchproduct" _) _).
  - reflexivity.
  - intros p Hp. simpl in Hp.
    repeat (apply elem_of_cons in Hp as [->|Hp]; [discriminate|]).
    by apply elem_of_nil in Hp.
Defined.

(** X11: creating a product and looking it up.  For an authorised caller
    the route appends the product under the id of the form, or under the
    random id when the form has none or an empty one.  A lookup of that id
    afterwards returns the new product only if no product carried the id
    before: an older product of the same id keeps answering, for the route
    does not check the id of the form against the table. *)
Theorem X11_create_then_get (db : MockDatabase) (env : Env) (h : Headers)
    (c : Rbac.AuthContext) (formData : ProductsRoute.Form) :
  Rbac.requireRoles db h (Rbac.PERMISSIONS Rbac.PRODUCT_CREATE)
    = Rbac.Authorized c ->
  exists p,
    ProductsRoute.POST db env h formData
    = (json (PProduct p) 201, with_products db (products db ++ [p]))
    /\ Product.id p
       = match ProductsRoute.id formData with
         | Some id => if String.eqb id "" then random env 0 else id
         | None => random env 0
         end
    /\ MockDB.getProductById (with_products db (products db ++ [p]))
         (VStr (Product.id p))
       = match MockDB.getProductById db (VStr (Product.id p)) with
         | Some older => Some older
         | None => Some p
         end.
Proof.
  intros Hauth. unfold ProductsRoute.POST. rewrite Hauth. simpl.
  eexists. split; [reflexivity|]. split; [reflexivity|].
  unfold MockDB.getProductById. simpl products. rewrite find_app'.
  destruct (List.find _ (products db)); [done|].
  simpl. by rewrite String.eqb_refl.
Qed.

Lemma X11_create_then_get_witness :
  exists p,
    ProductsRoute.POST INITIAL_DATA env0 None widget_form
    = (json (PProduct p) 201,
       with_products INITIAL_DATA (products INITIAL_DATA ++ [p]))
    /\ Product.id p = "Widget"
    /\ MockDB.getProductById
         (with_products INITIAL_DATA (products INITIAL_DATA ++ [p]))
         (VStr (Product.id p))
       = match MockDB.getProductById INITIAL_DATA (VStr (Product.id p)) with
         | Some older => Some older
         | None => Some p
         end.
Proof.
  exact (X11_create_then_get INITIAL_DATA env0 None (Rbac.mkContext u3)
           widget_form eq_refl).
Defined.

(** X12: updating a product.  For an authorised caller the route answers
    404 and changes nothing when no product carries the id; otherwise the
    earliest product of that id is replaced, at its position, by itself with
    the fields of the body laid over it, and returned.  A body without fields
    leaves the store as it was; with a body that has no [id] field a lookup
    of the id afterwards returns the updated product. *)
Theorem X12_update_product (db : MockDatabase) (h : Headers)
    (c : Rbac.AuthContext) (id : string) (body : Product.partial) :
  Rbac.requireRoles db h (Rbac.PERMISSIONS Rbac.PRODUCT_UPDATE)
    = Rbac.Authorized c ->
  ((forall p, p ∈ products db -> Product.id p <> id) ->
   ProductRoute.PUT db h id body
   = (json (PError "Product not found") 404, db))
  /\ (forall i p,
        products db !! i = Some p ->
        Product.id p = id ->
        (forall j q, j < i -> products db !! j = Some q -> Product.id q <> id) ->
        let db' :=
          with_products db (<[i := Product.merge p body]> (products db)) in
        ProductRoute.PUT db h id body
        = (json (PProduct (Product.merge p body)) 200, db')
        /\ (body = Product.mkPartial None None None None None None None None
                     None None None None None None -> db' = db)
        /\ (Product.u_id body = None ->
            MockDB.getProductById db' (VStr id)
            = Some (Product.merge p body))).
Proof.
  intros Hauth. unfold ProductRoute.PUT, MockDB.updateProduct.
  rewrite Hauth. split.
  - intros Hno. rewrite (proj2 (findIndex_None _ (products db))); [done|].
    intros p Hp. apply String.eqb_neq. by apply Hno.
  - intros i p Hi Hid Hmin.
    assert (Hidx : findIndex (fun p => String.eqb (Product.id p) id)
                     (products db) = Some i).
    { apply findIndex_Some. exists p. split; [done|].
      split; [by apply String.eqb_eq|]. intros j q Hj Hq.
      apply String.eqb_neq. by apply (Hmin j). }
    rewrite Hidx, Hi. split; [done|]. split.
    + intros ->.
      assert (Hm : Product.merge p
                     (Product.mkPartial None None None None None None None
                        None None None None None None None) = p)
        by (by destruct p).
      rewrite Hm, list_insert_id by done. apply with_products_id.
    + intros Hnoid. unfold MockDB.getProductById.
      rewrite find_findIndex. simpl products.
      rewrite (findIndex_insert_same _ _ i p); [|done|].
      * simpl. rewrite Hidx. simpl.
        apply list_lookup_insert_eq. by eapply lookup_lt_Some.
      * destruct p, body. simpl in *. by subst.
Qed.

Lemma X12_update_product_witness :
  ProductRoute.PUT INITIAL_DATA (Some "u2") "nosuchproduct"
    (Product.mkPartial None (Some "Renamed") None None None None None None
       None None None None None (Some true))
  = (json (PError "Product not found") 404, INITIAL_DATA).
Proof.
  refine (proj1 (X12_update_product INITIAL_DATA (Some "u2")
                   (Rbac.mkContext u2) "nosuchproduct" _ _) _).
  - reflexivity.
  - intros p Hp. simpl in Hp.
    repeat (apply elem_of_cons in Hp as [->|Hp]; [discriminate|]).
    by apply elem_of_nil in Hp.
Defined.

(** ** The product lists (X13, X14) *)

(** The store after [PUT /api/product-lists/[id]], for an authorised caller
    and an existing list. *)
Lemma PUT_productList_closed db env h c id body i pl :
  Rbac.requireRoles db h (Rbac.PERMISSIONS Rbac.ORDER_UPDATE)
    = Rbac.Authorized c ->
  productLists db !! i = Some pl ->
  ProductList.id pl = id ->
  (forall j y, j < i -> productLists db !! j = Some y ->
               ProductList.id y <> id) ->
  ProductListRoute.PUT db env h id body
  = (json PSuccess 200,
     match ProductListRoute.items body with
     | Some items =>
         with_productListItems
           (with_productLists db
              (<[i := updated_list pl body]> (productLists db)))
           (List.filter
              (fun item =>
                 negb (String.eqb (ProductListItem.productListId item) id))
              (productListItems db)
            ++ imap (fun k item => newItem (random env (0 + k)) id item) items)
     | None =>
         with_productLists db
           (<[i := updated_list pl body]> (productLists db))
     end).
Proof.
  intros Hauth Hi Hid Hmin.
  assert (Hget : MockDB.getProductListById db id = Some pl).
  { apply getProductListById_Some. eauto. }
  unfold ProductListRoute.PUT. rewrite Hauth, Hget, Hid. f_equal.
  unfold updated_list.
  set (pl1 := match ProductListRoute.status body with
              | Some status =>
                  if String.eqb status "" then pl
                  else ProductList.merge pl (ProductList.only_status status)
              | None => pl
              end).
  set (db1 := match ProductListRoute.status body with
              | Some _ => _ | None => _ end).
  assert (H1 : db1 = with_productLists db (<[i := pl1]> (productLists db))).
  { assert (Hsame : db = with_productLists db (<[i := pl]> (productLists db))).
    { rewrite list_insert_id by done. by destruct db. }
    subst db1 pl1. destruct (ProductListRoute.status body) as [s|]; [|done].
    destruct (String.eqb s ""); [done|].
    by rewrite (updateProductList_found db id _ i pl). }
  assert (Hid1 : ProductList.id pl1 = id).
  { subst pl1. destruct (ProductListRoute.status body) as [s|]; [|done].
    destruct (String.eqb s ""); [done|]. by destruct pl. }
  assert (Hi1 : productLists db1 !! i = Some pl1).
  { rewrite H1. simpl. apply list_lookup_insert_eq. by eapply lookup_lt_Some. }
  assert (Hmin1 : forall j y, j < i -> productLists db1 !! j = Some y ->
                              ProductList.id y <> id).
  { intros j y Hj Hy. rewrite H1 in Hy. simpl in Hy.
    rewrite list_lookup_insert_ne in Hy by lia. by apply (Hmin j). }
  destruct (ProductListRoute.items body) as [items|].
  - rewrite (updateProductList_found db1 id _ i pl1) by done.
    rewrite forEach_item_closed, reduce_quantity_sum. rewrite H1. simpl.
    by rewrite list_insert_insert_eq.
  - by rewrite H1.
Qed.

Lemma filter_negb_idem {A : Type} (f : A -> bool) (l : list A) :
  List.filter (fun x => negb (f x)) (List.filter (fun x => negb (f x)) l)
  = List.filter (fun x => negb (f x)) l.
Proof.
  induction l as [|a l IH]; simpl; [done|].
  destruct (f a) eqn:Fa; simpl; [done|]. by rewrite Fa, IH.
Qed.

Lemma filter_negb_items_same (news : list ProductListItem.t) (x : string) :
  Forall (fun item => ProductListItem.productListId item = x) news ->
  List.filter
    (fun item => negb (String.eqb (ProductListItem.productListId item) x))
    news = [].
Proof.
  induction 1 as [|a l Ha _ IH]; simpl; [done|].
  by rewrite Ha, String.eqb_refl.
Qed.

Lemma updated_list_twice pl body :
  updated_list (updated_list pl body) body = updated_list pl body.
Proof.
  unfold updated_list.
  destruct (ProductListRoute.status body) as [s|],
    (ProductListRoute.items body) as [items|];
    try destruct (String.eqb s ""); by destruct pl.
Qed.

Lemma updated_list_id pl body :
  ProductList.id (updated_list pl body) = ProductList.id pl.
Proof.
  unfold updated_list.
  destruct (ProductListRoute.status body) as [s|],
    (ProductListRoute.items body) as [items|];
    try destruct (String.eqb s ""); by destruct pl.
Qed.

(** X13: replacing the items of a list is idempotent.  Sending the same
    update of a product list twice, with the same random draws, answers the
    same twice and leaves the store the first one left: the second call
    removes the items the first inserted and inserts them again, and
    recomputes the same total. *)
Theorem X13_update_list_twice (db : MockDatabase) (env : Env) (h : Headers)
    (id : string) (body : ProductListRoute.Body) :
  let first := ProductListRoute.PUT db env h id body in
  ProductListRoute.PUT (snd first) env h id body = first.
Proof.
  intros first. subst first.
  destruct (Rbac.requireRoles db h (Rbac.PERMISSIONS Rbac.ORDER_UPDATE))
    as [c|resp] eqn:Hauth;
    [|unfold ProductListRoute.PUT; rewrite Hauth; simpl snd;
      by rewrite Hauth].
  destruct (MockDB.getProductListById db id) as [pl|] eqn:Hget;
    [|unfold ProductListRoute.PUT; rewrite Hauth, Hget; simpl snd;
      by rewrite Hauth, Hget].
  apply getProductListById_Some in Hget as (i & Hi & Hid & Hmin).
  rewrite (PUT_productList_closed db env h c id body i pl) by done.
  simpl snd.
  set (db' := match ProductListRoute.items body with
              | Some _ => _ | None => _ end).
  assert (Hl : productLists db'
               = <[i := updated_list pl body]> (productLists db)).
  { subst db'. by destruct (ProductListRoute.items body). }
  assert (Hu : users db' = users db).
  { subst db'. by destruct (ProductListRoute.items body). }
  rewrite (PUT_productList_closed db' env h c id body i (updated_list pl body)).
  - f_equal. subst db'. rewrite updated_list_twice.
    destruct (ProductListRoute.items body) as [items|]; simpl;
      rewrite list_insert_insert_eq; [|done].
    rewrite List.filter_app, filter_negb_idem.
    rewrite (filter_negb_items_same
               (imap (fun k item => newItem (random env k) id item) items) id)
      by apply (new_items_owner env 0).
    by rewrite app_nil_r.
  - by rewrite (requireRoles_users db).
  - rewrite Hl. apply list_lookup_insert_eq. by eapply lookup_lt_Some.
  - by rewrite updated_list_id.
  - intros j y Hj Hy. rewrite Hl in Hy.
    rewrite list_lookup_insert_ne in Hy by lia. by apply (Hmin j).
Qed.

Lemma fmap_map_cancel {A B : Type} (f : A -> B) (g : B -> A) (l : list A) :
  (forall x, g (f x) = x) -> g <$> map f l = l.
Proof.
  intros H. induction l as [|a l IH]; [done|].
  simpl. f_equal; [apply H|apply IH].
Qed.




(** ** Exhibitions and pending approvals (X15, X16) *)









Lemma filter_insert_false {A : Type} (f : A -> bool) (l : list A) i x :
  i < length l -> f x = false ->
  List.filter f (<[i := x]> l) = List.filter f (delete i l).
Proof.
  revert i. induction l as [|a l IH]; intros i Hi Hx; simpl in *; [lia|].
  destruct i as [|i]; simpl.
  - by rewrite Hx.
  - rewrite IH by (done || lia). done.
Qed.

(** X16: an approval and the pending list.  After an authorised caller set
    the status of the earliest row of an id to approved or rejected, the
    pending rows of the store, and the rows the pending route shows, are the
    pending rows of the table without that row, in the same order: the
    decided row leaves the list and no other row moves. *)
Theorem X16_decided_row_leaves_pending (db : MockDatabase) (h h' : Headers)
    (c c' : Rbac.AuthContext) (id status : string)
    (st : ExhibitionProduct.Status) (i : nat) (ep : ExhibitionProduct.t) :
  Rbac.requireRoles db h (Rbac.PERMISSIONS Rbac.APPROVAL_APPROVE)
    = Rbac.Authorized c ->
  Rbac.requireRoles db h' (Rbac.PERMISSIONS Rbac.APPROVAL_READ)
    = Rbac.Authorized c' ->
  ApproveRoute.included (VStr status) = Some st ->
  exhibitionProducts db !! i = Some ep ->
  ExhibitionProduct.id ep = id ->
  (forall j ep', j < i -> exhibitionProducts db !! j = Some ep' ->
                 ExhibitionProduct.id ep' <> id) ->
  let db' := snd (ApproveRoute.POST db h (approval_body id status)) in
  MockDB.getPendingExhibitionProducts db'
  = List.filter pendingb (delete i (exhibitionProducts db))
  /\ exists data,
       ApproveRoute.GET db' h' = Data data
       /\ ApproveRoute.row <$> data
          = List.filter pendingb (delete i (exhibitionProducts db)).
Proof.
  intros Hauth Hread Hst Hi Hid Hmin db'.
  assert (Hdb : db' = with_exhibitionProducts db
                        (<[i := ExhibitionProduct.merge ep
                                  (ExhibitionProduct.only_status st)]>
                           (exhibitionProducts db))).
  { subst db'.
    rewrite (POST_approve_found db h c (approval_body id status) st i ep);
      try done.
    - by rewrite <- Hid.
    - intros j ep' Hj Hj' [= Heq]. by apply (Hmin j ep'). }
  assert (Hpending : MockDB.getPendingExhibitionProducts db'
                     = List.filter pendingb
                         (delete i (exhibitionProducts db))).
  { rewrite Hdb. unfold MockDB.getPendingExhibitionProducts. simpl.
    apply (filter_insert_false pendingb); [by eapply lookup_lt_Some|].
    rewrite merge_only_status. unfold pendingb. simpl.
    apply included_Some in Hst as [[_ ->]|[_ ->]]; reflexivity. }
  split; [exact Hpending|].
  unfold ApproveRoute.GET.
  rewrite (requireRoles_users db) by (by rewrite Hdb).
  rewrite Hread. eexists. split; [reflexivity|].
  rewrite Hpending. by apply fmap_map_cancel.
Qed.

Lemma X16_decided_row_leaves_pending_witness :
  MockDB.getPendingExhibitionProducts
    (snd (ApproveRoute.POST INITIAL_DATA (Some "u1")
            (approval_body "is0w5qty1" "rejected")))
  = List.filter pendingb (delete 2 (exhibitionProducts INITIAL_DATA)).
Proof.
  refine (proj1
    (X16_decided_row_leaves_pending INITIAL_DATA (Some "u1") (Some "u4")
       (Rbac.mkContext u1) (Rbac.mkContext u4) "is0w5qty1" "rejected"
       ExhibitionProduct.rejected 2
       (seed_exhibitionProduct "is0w5qty1" "456570" ExhibitionProduct.pending)
       _ _ _ _ _ _)); try reflexivity.
  intros [|[|j]] ep' Hj Hy; [| |lia]; simpl in Hy;
    injection Hy as <-; discriminate.
Defined.

(** ** The order summary of [GET /api/orders] (X17) *)

Lemma sum_Z_app l k : sum_Z (l ++ k) = (sum_Z l + sum_Z k)%Z.
Proof.
  unfold sum_Z. induction l as [|a l IH]; simpl; [done|]. rewrite IH. lia.
Qed.

Lemma lines_value_app l k :
  lines_value (l ++ k) = (lines_value l + lines_value k)%Z.
Proof. unfold lines_value. by rewrite fmap_app, sum_Z_app. Qed.


Lemma lines_value_cons l k :
  lines_value (l :: k)
  = (ProductListItem.price (OrdersRoute.line_item l)
     * ProductListItem.quantity (OrdersRoute.line_item l)
     + lines_value k)%Z.
Proof. reflexivity. Qed.

Lemma forEach_line_closed db pl acc items :
  OrdersRoute.forEach_line db pl acc items
  = OrdersRoute.mkTotals
      (OrdersRoute.acc_totalValue acc
       + lines_value
           (map (fun item =>
                   OrdersRoute.mkLine item
                     (details_of
                        (MockDB.getProductById db
                           (VStr (ProductListItem.productId item))))
                     (ProductList.supplierId pl)) items))%Z
      (OrdersRoute.acc_totalQuantity acc)
      (OrdersRoute.acc_allItems acc
       ++ map (fun item =>
                 OrdersRoute.mkLine item
                   (details_of
                      (MockDB.getProductById db
                         (VStr (ProductListItem.productId item))))
                   (ProductList.supplierId pl)) items).
Proof.
  unfold OrdersRoute.forEach_line. revert acc.
  induction items as [|item items IH]; intros acc.
  - simpl. destruct acc. simpl. f_equal; [unfold lines_value; simpl; lia|].
    by rewrite app_nil_r.
  - cbn [fold_left]. rewrite IH. cbn [OrdersRoute.acc_totalValue
      OrdersRoute.acc_totalQuantity OrdersRoute.acc_allItems map].
    f_equal; [|by rewrite <- app_assoc].
    rewrite lines_value_cons. cbn [OrdersRoute.line_item].
    destruct (ProductListItem.price item =? 0)%Z eqn:Hp; [|lia].
    apply Z.eqb_eq in Hp. rewrite Hp. lia.
Qed.

Lemma forEach_list_closed db acc lists :
  OrdersRoute.forEach_list db acc lists
  = OrdersRoute.mkTotals
      (OrdersRoute.acc_totalValue acc
       + lines_value (concat (lines_of db <$> lists)))%Z
      (OrdersRoute.acc_totalQuantity acc
       + sum_Z (ProductList.totalQuantity <$> lists))%Z
      (OrdersRoute.acc_allItems acc ++ concat (lines_of db <$> lists)).
Proof.
  unfold OrdersRoute.forEach_list. revert acc.
  induction lists as [|pl lists IH]; intros acc.
  - simpl. destruct acc. simpl. unfold lines_value. simpl.
    f_equal; [lia|lia|by rewrite app_nil_r].
  - cbn [fold_left]. rewrite IH, forEach_line_closed.
    cbn [OrdersRoute.acc_totalValue OrdersRoute.acc_totalQuantity
         OrdersRoute.acc_allItems].
    change (lines_of db <$> pl :: lists)
      with (lines_of db pl :: (lines_of db <$> lists)).
    change (ProductList.totalQuantity <$> pl :: lists)
      with (ProductList.totalQuantity pl
            :: (ProductList.totalQuantity <$> lists)).
    cbn [concat]. rewrite lines_value_app.
    change (sum_Z (ProductList.totalQuantity pl
                   :: (ProductList.totalQuantity <$> lists)))
      with (ProductList.totalQuantity pl
            + sum_Z (ProductList.totalQuantity <$> lists))%Z.
    unfold lines_of at 3 5.
    f_equal; [lia|lia|by rewrite <- app_assoc].
Qed.

Lemma filter_filter_andb {A : Type} (f g : A -> bool) (l : list A) :
  List.filter g (List.filter f l) = List.filter (fun x => f x && g x) l.
Proof.
  induction l as [|a l IH]; simpl; [done|].
  destruct (f a); simpl; [|done]. destruct (g a); by rewrite IH.
Qed.


Lemma summary_closed db ex :
  OrdersRoute.summary db
    (List.filter (fun pl => String.eqb (ProductList.status pl) "approved")
       (productLists db)) ex
  = let lists := approved_lists_of db (Exhibition.exhibitionId ex) in
    OrdersRoute.mkSummary ex (concat (lines_of db <$> lists))
      (lines_value (concat (lines_of db <$> lists)))
      (sum_Z (ProductList.totalQuantity <$> lists))
      (match lists with [] => "Pending" | _ => "Active" end).
Proof.
  unfold OrdersRoute.summary. rewrite filter_filter_andb.
  fold (approved_lists_of db (Exhibition.exhibitionId ex)).
  rewrite forEach_list_closed. cbn zeta. simpl OrdersRoute.acc_allItems.
  simpl OrdersRoute.acc_totalValue. simpl OrdersRoute.acc_totalQuantity.
  f_equal. by destruct (approved_lists_of db (Exhibition.exhibitionId ex)).
Qed.



(** ** What the routes never undo (X18) *)

Lemma handle_orders_append db r :
  exists news, orders (snd (handle db r)) = (orders db ++ news)%list.
Proof.
  destruct (handle_footprint db r) as [_ Hfp].
  destruct (operation r) eqn:Hop;
    try (exists []; rewrite Hfp, app_nil_r; reflexivity).
  unfold handle. rewrite Hop. unfold OrdersRoute.POST.
  destruct (Rbac.requireRoles _ _ _); [|exists []; by rewrite app_nil_r].
  destruct (truthy _ && truthy _ && isArray _);
    [destruct (OrdersRoute.validate _ _ _)|]; simpl;
    first [by eexists | exists []; by rewrite app_nil_r].
Qed.

Lemma handle_exhibitions_append db r :
  exists news,
    exhibitions (snd (handle db r)) = (exhibitions db ++ news)%list.
Proof.
  destruct (handle_footprint db r) as [_ Hfp].
  destruct (operation r) eqn:Hop;
    try (exists []; rewrite Hfp, app_nil_r; reflexivity).
  unfold handle. rewrite Hop. unfold ExhibitionsRoute.POST.
  destruct (Rbac.requireRoles _ _ _); [|exists []; by rewrite app_nil_r].
  cbn [MockDB.addExhibition].
  destruct (ExhibitionsRoute.products body); simpl snd;
    rewrite ?forEach_product_closed; by eexists.
Qed.

Lemma handle_row_identity db r i ep :
  exhibitionProducts db !! i = Some ep ->
  exists ep',
    exhibitionProducts (snd (handle db r)) !! i = Some ep'
    /\ MockDB.assign_status ep' (ExhibitionProduct.status ep) = ep.
Proof.
  intros Hi.
  destruct (handle_exhibitionProducts db r)
    as [(news & -> & _)|(body & i0 & ep0 & st & _ & Hi0 & Hst & ->)].
  - exists ep. split; [by apply lookup_app_l_Some|by destruct ep].
  - destruct (decide (i0 = i)) as [->|Hne].
    + eexists. split;
        [apply list_lookup_insert_eq; by eapply lookup_lt_Some|].
      simplify_eq. by destruct ep.
    + exists ep. rewrite list_lookup_insert_ne by done.
      split; [done|by destruct ep].
Qed.

(** X18: what no sequence of requests undoes.  Whatever requests follow,
    from whatever actors, the orders and the exhibitions the store holds stay
    where they are, unchanged, with new ones only added behind them; and a row
    of the table of exhibition products stays at its position with its id,
    exhibition, product, quantity, price and supplier: only its status can
    differ.  No route edits or removes an order, an exhibition or a row. *)
Theorem X18_append_only (db : MockDatabase) (requests : list Request) :
  orders db `prefix_of` orders (run db requests)
  /\ exhibitions db `prefix_of` exhibitions (run db requests)
  /\ forall i ep,
       exhibitionProducts db !! i = Some ep ->
       exists ep',
         exhibitionProducts (run db requests) !! i = Some ep'
         /\ MockDB.assign_status ep' (ExhibitionProduct.status ep) = ep.
Proof.
  revert db. induction requests as [|r rs IH]; intros db.
  - split; [done|]. split; [done|]. intros i ep Hi. exists ep.
    split; [done|by destruct ep].
  - destruct (IH (snd (handle db r))) as (Ho & He & Hr).
    destruct (handle_orders_append db r) as [no Hno].
    destruct (handle_exhibitions_append db r) as [ne Hne].
    change (run db (r :: rs)) with (run (snd (handle db r)) rs).
    split; [|split].
    + etrans; [|exact Ho]. rewrite Hno. by apply prefix_app_r.
    + etrans; [|exact He]. rewrite Hne. by apply prefix_app_r.
    + intros i ep Hi.
      destruct (handle_row_identity db r i ep Hi) as (ep1 & Hi1 & Heq1).
      destruct (Hr i ep1 Hi1) as (ep' & Hi' & Heq').
      exists ep'. split; [done|]. rewrite <- Heq1, <- Heq'.
      by destruct ep'.
Qed.

Lemma X18_append_only_witness :
  exists ep',
    exhibitionProducts (run INITIAL_DATA duplicate_row_requests) !! 1
    = Some ep'
    /\ MockDB.assign_status ep' ExhibitionProduct.pending
       = seed_exhibitionProduct "cszttszpu" "456568" ExhibitionProduct.pending.
Proof.
  exact (proj2 (proj2 (X18_append_only INITIAL_DATA duplicate_row_requests))
           1 _ eq_refl).
Defined.

(** ** Looking up and updating orders (X19, X20) *)

(** X19: a created order and the lookup by id.  After the route created an
    order, the table is the old table followed by the order; a lookup of the
    order's id returns the order only if no older order carries that id.
    Since a body may bring its own [id] and the generated id is not checked
    against the table, an older order of the same id keeps answering. *)
Theorem X19_created_order_lookup (db db' : MockDatabase) (env : Env)
    (h : Headers) (body : jsobj) (o : Order) :
  OrdersRoute.POST db env h body = (json (POrder o) 201, db') ->
  MockDB.getOrders db' = (MockDB.getOrders db ++ [o])%list
  /\ forall id : string,
       o !! "id" = Some (VStr id) ->
       MockDB.getOrderById db' id
       = match MockDB.getOrderById db id with
         | Some older => Some older
         | None => Some o
         end.
Proof.
  intros H. apply POST_orders_created in H as [Ho ->].
  split; [done|]. intros id Hid.
  unfold MockDB.getOrderById. simpl orders. rewrite find_app'.
  destruct (List.find _ (orders db)); [done|].
  simpl. unfold destructure. rewrite Hid. simpl. by rewrite String.eqb_refl.
Qed.

Lemma X19_created_order_lookup_witness :
  MockDB.getOrderById
    (snd (OrdersRoute.POST INITIAL_DATA env0 None
            {[ "id" := VStr "7535"; "quantity" := VNum 1 ]}))
    "7535"
  = match MockDB.getOrderById INITIAL_DATA "7535" with
    | Some older => Some older
    | None =>
        Some (OrdersRoute.newOrder env0 VUndefined
                {[ "id" := VStr "7535"; "quantity" := VNum 1 ]})
    end.
Proof.
  refine (proj2
    (X19_created_order_lookup INITIAL_DATA _ env0 None
       {[ "id" := VStr "7535"; "quantity" := VNum 1 ]} _ eq_refl)
    "7535" _).
  reflexivity.
Defined.

(** X20: updating an order in the store.  [updateOrder] answers null exactly
    when [getOrderById] finds nothing, and then changes nothing.  Otherwise it
    replaces the order [getOrderById] finds, at its position, by that order
    with the fields of the update laid over it: a key of the update holds the
    value of the update, every other key keeps its value; and when the update
    has no [id] key, a lookup of the id afterwards returns the updated
    order. *)
Theorem X20_update_order (db : MockDatabase) (id : string) (updates : jsobj) :
  (MockDB.updateOrder db id updates = None
   <-> MockDB.getOrderById db id = None)
  /\ forall old,
       MockDB.getOrderById db id = Some old ->
       exists i,
         orders db !! i = Some old
         /\ MockDB.updateOrder db id updates
            = Some (updates ∪ old,
                    with_orders db (<[i := updates ∪ old]> (orders db)))
         /\ (forall k,
               (updates ∪ old) !! k
               = match updates !! k with
                 | Some v => Some v
                 | None => old !! k
                 end)
         /\ (updates !! "id" = None ->
             MockDB.getOrderById
               (with_orders db (<[i := updates ∪ old]> (orders db))) id
             = Some (updates ∪ old)).
Proof.
  unfold MockDB.updateOrder, MockDB.getOrderById.
  rewrite find_findIndex.
  destruct (findIndex _ (orders db)) as [i|] eqn:Hidx; simpl.
  - pose proof Hidx as Hidx'.
    apply findIndex_Some in Hidx' as (old & Hi & Hm & Hmin).
    rewrite Hi. split; [done|].
    intros old' [= <-]. exists i. split; [done|]. split; [done|]. split.
    + intros k. destruct (updates !! k) as [v|] eqn:Hk.
      * by apply lookup_union_Some_l.
      * by rewrite lookup_union_r.
    + intros Hnoid. rewrite find_findIndex.
      rewrite (findIndex_insert_same _ _ i old); [|done|].
      * rewrite Hidx. simpl. apply list_lookup_insert_eq.
        by eapply lookup_lt_Some.
      * unfold destructure. by rewrite lookup_union_r.
  - split; [done|]. discriminate.
Qed.

Lemma X20_update_order_witness :
  exists i,
    orders INITIAL_DATA !! i
    = Some (seed_order "5724" "Flavors of the City" 2557000 22
              "2022-12-21" "Received")
    /\ MockDB.updateOrder INITIAL_DATA "5724" {[ "status" := VStr "Returned" ]}
       = Some ({[ "status" := VStr "Returned" ]}
               ∪ seed_order "5724" "Flavors of the City" 2557000 22
                   "2022-12-21" "Received",
               with_orders INITIAL_DATA
                 (<[i := {[ "status" := VStr "Returned" ]}
                         ∪ seed_order "5724" "Flavors of the City" 2557000 22
                             "2022-12-21" "Received"]>
                    (orders INITIAL_DATA))).
Proof.
  destruct (proj2 (X20_update_order INITIAL_DATA "5724"
                     {[ "status" := VStr "Returned" ]})
              (seed_order "5724" "Flavors of the City" 2557000 22
                 "2022-12-21" "Received") eq_refl)
    as (i & Hi & Hu & _).
  exists i. by split.
Defined.

(** ** More on product lists (X21 to X23) *)

(** X21: deleting the items of a list.  After
    [deleteProductListItemsByProductListId] the store holds no item of that
    list, holds the items of every other list as before, in order, and holds
    the lists themselves untouched: the total of the emptied list is not
    reset by the deletion. *)
Theorem X21_delete_items (db : MockDatabase) (productListId : string) :
  let db' := MockDB.deleteProductListItemsByProductListId db productListId in
  MockDB.getProductListItemsByProductListId db' productListId = []
  /\ (forall other, other <> productListId ->
        MockDB.getProductListItemsByProductListId db' other
        = MockDB.getProductListItemsByProductListId db other)
  /\ productLists db' = productLists db
  /\ forall item,
       item ∈ productListItems db' <->
       item ∈ productListItems db
       /\ ProductListItem.productListId item <> productListId.
Proof.
  intros db'. subst db'.
  unfold MockDB.deleteProductListItemsByProductListId,
    MockDB.getProductListItemsByProductListId. simpl.
  split; [|split; [|split]].
  - apply (filter_filter_negb
             (fun pli => String.eqb (ProductListItem.productListId pli)
                           productListId)).
  - intros other Hne. by apply filter_filter_other.
  - done.
  - intros item. rewrite !list_elem_of_In, List.filter_In.
    by rewrite negb_true_iff, String.eqb_neq.
Qed.

Lemma X21_delete_items_witness :
  MockDB.getProductListItemsByProductListId
    (MockDB.deleteProductListItemsByProductListId INITIAL_DATA "a1e8x088e")
    "r2is3icfx"
  = MockDB.getProductListItemsByProductListId INITIAL_DATA "r2is3icfx".
Proof.
  refine (proj1 (proj2 (X21_delete_items INITIAL_DATA "a1e8x088e"))
            "r2is3icfx" _).
  discriminate.
Defined.



(** X23: approving a list shows in the order summary.  When an authorised
    caller sets the status of an existing product list to approved, every
    summary the orders route answers afterwards for an exhibition of the
    code of that list is Active.  The status of the update is not checked:
    any non-empty string becomes the status of the list. *)
Theorem X23_approved_list_is_active (db : MockDatabase) (env : Env)
    (h h' : Headers) (c c' : Rbac.AuthContext) (id status : string)
    (pl : ProductList.t) :
  Rbac.requireRoles db h (Rbac.PERMISSIONS Rbac.ORDER_UPDATE)
    = Rbac.Authorized c ->
  Rbac.requireRoles db h' (Rbac.PERMISSIONS Rbac.ORDER_READ)
    = Rbac.Authorized c' ->
  MockDB.getProductListById db id = Some pl ->
  status <> "" ->
  let db' :=
    snd (ProductListRoute.PUT db env h id
           (ProductListRoute.mkBody (Some status) None)) in
  (exists pl',
     MockDB.getProductListById db' id = Some pl'
     /\ ProductList.status pl' = status
     /\ ProductList.exhibitionId pl' = ProductList.exhibitionId pl
     /\ ProductList.totalQuantity pl' = ProductList.totalQuantity pl)
  /\ (status = "approved" ->
      exists data,
        OrdersRoute.GET db' h' = Data data
        /\ forall s, s ∈ data ->
             Exhibition.exhibitionId (OrdersRoute.exhibition s)
             = ProductList.exhibitionId pl ->
             OrdersRoute.status s = "Active").
Proof.
  intros Hauth Hread Hget Hne db'.
  apply getProductListById_Some in Hget as (i & Hi & Hid & Hmin).
  assert (Hdb : db' = with_productLists db
                        (<[i := ProductList.merge pl
                                  (ProductList.only_status status)]>
                           (productLists db))).
  { subst db'.
    rewrite (PUT_productList_closed db env h c id _ i pl) by done.
    simpl. unfold updated_list. simpl.
    apply String.eqb_neq in Hne. by rewrite Hne. }
  assert (Hi' : productLists db' !! i
                = Some (ProductList.merge pl (ProductList.only_status status))).
  { rewrite Hdb. simpl. apply list_lookup_insert_eq.
    by eapply lookup_lt_Some. }
  split.
  - exists (ProductList.merge pl (ProductList.only_status status)).
    split; [|by destruct pl].
    apply getProductListById_Some. exists i. split; [exact Hi'|].
    split; [by destruct pl|]. intros j y Hj Hy. rewrite Hdb in Hy.
    simpl in Hy. rewrite list_lookup_insert_ne in Hy by lia.
    by apply (Hmin j).
  - intros ->. unfold OrdersRoute.GET.
    rewrite (requireRoles_users db) by (by rewrite Hdb).
    rewrite Hread. eexists. split; [reflexivity|].
    intros s Hs Hcode.
    unfold MockDB.getExhibitions, MockDB.getProductLists in Hs.
    apply list_elem_of_In, in_map_iff in Hs as (ex & <- & _).
    rewrite summary_closed in Hcode |- *. cbn zeta in *.
    cbn [OrdersRoute.exhibition OrdersRoute.status] in *.
    assert (Hin : ProductList.merge pl (ProductList.only_status "approved")
                  ∈ approved_lists_of db' (Exhibition.exhibitionId ex)).
    { unfold approved_lists_of. apply list_elem_of_In, List.filter_In.
      split; [apply list_elem_of_In, list_elem_of_lookup; eauto|].
      rewrite Hcode. destruct pl. simpl. by rewrite String.eqb_refl. }
    destruct (approved_lists_of db' (Exhibition.exhibitionId ex)); [|done].
    by apply elem_of_nil in Hin.
Qed.

Lemma X23_approved_list_is_active_witness :
  exists pl',
    MockDB.getProductListById
      (snd (ProductListRoute.PUT INITIAL_DATA env0 (Some "u2") "r2is3icfx"
              (ProductListRoute.mkBody (Some "approved") None)))
      "r2is3icfx" = Some pl'
    /\ ProductList.status pl' = "approved"
    /\ ProductList.exhibitionId pl' = "EX-7460"
    /\ ProductList.totalQuantity pl' = 3%Z.
Proof.
  refine (proj1
    (X23_approved_list_is_active INITIAL_DATA env0 (Some "u2") (Some "u4")
       (Rbac.mkContext u2) (Rbac.mkContext u4) "r2is3icfx" "approved"
       (ProductList.mk "r2is3icfx" "EX-7460" "current-user" "pending"
          "2025-12-03T03:06:14.423Z" 3) _ _ _ _)); try reflexivity.
  discriminate.
Defined.
